(** * Wikipedia feed: engagement aggregation, classification and feed mixing

    A shallow embedding of [src/engine/engagement.py],
    [src/engine/recommendations.py] and of [extract_categories] and
    [map_categories] of [src/server.py].

    Conventions of the embedding.
    - Python [float] values are modelled as exact rationals ([Q]); equality
      of weights is [Qeq] ([==]).  Division by a zero divisor raises
      [ZeroDivisionError], as in Python.  The split of the feed,
      [int(count * (1 - feed_mix))], is also given in double precision
      (module [Binary64]), where the rounding decides the result.
    - A Python [dict] from category name to weight is a [gmap string Q];
      a Python [set] of article ids is a [gset Z].
    - The SQLite file is a record of tables, each table a list of rows in
      table order.  A [JOIN] is a nested loop over the tables.
    - Time is explicit: a [clock] carries SQLite's [datetime('now')] and
      Python's [datetime.now()], both in whole seconds.
    - Randomness ([ORDER BY RANDOM()], [random.shuffle]) is an explicit list
      of draws that selects the permutation. *)

From Stdlib Require Import ZArith QArith Qabs Qround Qpower Lia Lqa Ascii String.
From Stdlib Require Import SpecFloat.
From stdpp Require Import gmap strings list fin_maps sorting.

Local Open Scope string_scope.
Local Open Scope Z_scope.

(** ** Python values and exceptions *)

Inductive py_exception : Type :=
  | ZeroDivisionError
  | JSONDecodeError
  | OverflowError
  | ValueError.

Inductive py_result (A : Type) : Type :=
  | Ok (a : A)
  | Raise (e : py_exception).

Arguments Ok {A} a.
Arguments Raise {A} e.

Definition py_bind {A B : Type} (m : py_result A) (f : A → py_result B)
  : py_result B :=
  match m with
  | Ok a => f a
  | Raise e => Raise e
  end.

Notation "x ←ᵖ m ; k" := (py_bind m (λ x, k))
  (at level 20, m at level 100, k at level 200, only parsing).

Fixpoint py_mapM {A B : Type} (f : A → py_result B) (l : list A)
  : py_result (list B) :=
  match l with
  | [] => Ok []
  | x :: l' => y ←ᵖ f x; ys ←ᵖ py_mapM f l'; Ok (y :: ys)
  end.

(** [min(a, b)] and [max(a, b)] of Python: the first argument is kept
    unless the second is strictly smaller (resp. larger). *)
Definition py_min (a b : Q) : Q := if Qle_bool a b then a else b.
Definition py_max (a b : Q) : Q := if Qle_bool b a then a else b.

(** [max(iterable)] on a non-empty sequence [x :: l]. *)
Definition py_max_seq (x : Q) (l : list Q) : Q := fold_left py_max l x.

(** [int(q)]: truncation toward zero. *)
Definition py_int (q : Q) : Z := Z.quot (Qnum q) (Z.pos (Qden q)).

(** [d.values()] *)
Definition dict_values (d : gmap string Q) : list Q := (map_to_list d).*2.

(** [max(d.values())]; [None] stands for the empty sequence, on which
    Python's [max] is never called here. *)
Definition dict_max (d : gmap string Q) : option Q :=
  match dict_values d with
  | [] => None
  | v :: vs => Some (py_max_seq v vs)
  end.

(** [{k: v / m for k, v in d.items()}]: with no item nothing is divided;
    with an item and a zero [m] the first division raises. *)
Definition dict_div_all (d : gmap string Q) (m : Q)
  : py_result (gmap string Q) :=
  match dict_values d with
  | [] => Ok ∅
  | _ :: _ =>
      if Qeq_bool m 0 then Raise ZeroDivisionError
      else Ok ((λ v, (v / m)%Q) <$> d)
  end.

(** Truth value of a dict: non-empty. *)
Definition dict_truthy (d : gmap string Q) : bool :=
  negb (bool_decide (map_to_list d = [])).

(** [l[:n]]: a negative [n] counts from the end of the list. *)
Definition py_slice_to {A : Type} (l : list A) (n : Z) : list A :=
  if 0 <=? n then take (Z.to_nat n) l
  else take (Z.to_nat (Z.of_nat (length l) + n)) l.

(** ** Double precision

    The doubles of Python, with the operations of IEEE 754 in the rounding
    to nearest, ties to even. *)

Module Binary64.

Definition prec : Z := 53.
Definition emax : Z := 1024.

(** The conversion of a Python [int] to [float] in mixed arithmetic: the
    nearest double, [OverflowError] when the integer is too large. *)
Definition of_int (n : Z) : py_result spec_float :=
  match binary_normalize prec emax n 0 false with
  | S754_infinity _ => Raise OverflowError
  | x => Ok x
  end.

(** [int(x)]: truncation toward zero; [OverflowError] on an infinity and
    [ValueError] on a NaN. *)
Definition to_int (x : spec_float) : py_result Z :=
  match x with
  | S754_zero _ => Ok 0
  | S754_finite s m e =>
      let magnitude :=
        if 0 <=? e then Z.pos m * 2 ^ e else Z.pos m / 2 ^ (- e) in
      Ok (if s then - magnitude else magnitude)
  | S754_infinity _ => Raise OverflowError
  | S754_nan => Raise ValueError
  end.


(** [n / d] for two Python ints that doubles hold exactly. *)
Definition quotient (n d : Z) : py_result spec_float :=
  a ←ᵖ of_int n; b ←ᵖ of_int d; Ok (SFdiv prec emax a b).

(** [int(count * (1 - feed_mix))] of [get_recommendations]. *)
Definition recommend_count (count : Z) (feed_mix : spec_float)
  : py_result Z :=
  c ←ᵖ of_int count;
  one ←ᵖ of_int 1;
  to_int (SFmul prec emax c (SFsub prec emax one feed_mix)).

(** The doubles that Python writes [0.3] and [0.30000000000000004]; the
    second is the next double above the first. *)
Definition lit_0_3 : spec_float :=
  S754_finite false 5404319552844595 (-54).

Definition lit_0_30000000000000004 : spec_float :=
  S754_finite false 5404319552844596 (-54).

End Binary64.

(** ** The database *)

Record article_row : Type := {
  a_id : Z;
  a_page_id : Z;
  a_title : string;
  a_content : string;
  a_categories : option string;   (* JSON text, or NULL *)
  a_reading_time : Z;
  a_word_count : Z;
  a_access_count : Z
}.

Record category_row : Type := {
  c_id : Z;
  c_name : string
}.

Record article_category_row : Type := {
  ac_article_id : Z;
  ac_category_id : Z
}.

Record engagement_row : Type := {
  e_id : Z;
  e_article_id : Z;
  e_user_id : string;
  e_event_type : string;
  e_duration_seconds : option Z;  (* NULL is [None] *)
  e_scroll_depth : Q;
  e_timestamp : Z                 (* seconds *)
}.

Record database : Type := {
  articles : list article_row;
  categories : list category_row;
  article_categories : list article_category_row;
  engagement : list engagement_row
}.

Record clock : Type := {
  sql_now : Z;   (* datetime('now') of SQLite *)
  py_now : Z     (* datetime.now() of Python *)
}.

Definition seconds_per_day : Z := 86400.

(** ** engagement.py *)

Module Engagement.

(** Modelled from the spec: the schema of the [engagement] table
    (schema.sql) is not among the sources.  The row id is an integer primary
    key that SQLite assigns as one more than the largest id in the table,
    and the [timestamp] column defaults to the current time. *)
Definition next_rowid (log : list engagement_row) : Z :=
  1 + fold_right Z.max 0 (e_id <$> log).

(** A Python [int] bound to a statement parameter must fit SQLite's signed
    64-bit integer; [sqlite3] raises [OverflowError] otherwise, before the
    statement runs. *)
Definition fits_sqlite_integer (n : Z) : bool :=
  (- 2 ^ 63 <=? n) && (n <? 2 ^ 63).

(** [record_event]: one [INSERT] into [engagement], then [lastrowid].  The
    connection is opened by [sqlite3.connect] and no [PRAGMA foreign_keys]
    is issued, so SQLite does not check the article reference.  The store
    is taken to be available and the table to accept every value of the
    type of its column; the failure that remains is an integer argument out
    of range, raised when the parameters are bound, before anything is
    written. *)
Definition record_event (db : database) (clk : clock)
    (article_id : Z) (event_type : string) (user_id : string)
    (duration_seconds : Z) (scroll_depth : Q) : py_result (database * Z) :=
  if fits_sqlite_integer article_id && fits_sqlite_integer duration_seconds
  then
    let event_id := next_rowid (engagement db) in
    let row := {| e_id := event_id;
                  e_article_id := article_id;
                  e_user_id := user_id;
                  e_event_type := event_type;
                  e_duration_seconds := Some duration_seconds;
                  e_scroll_depth := scroll_depth;
                  e_timestamp := sql_now clk |} in
    Ok ({| articles := articles db;
           categories := categories db;
           article_categories := article_categories db;
           engagement := engagement db ++ [row] |}, event_id)
  else Raise OverflowError.

(** The [weights] dict and [weights.get(event_type, 1.0)]. *)
Definition weights : gmap string Q :=
  <["view" := 1%Q]> (<["read" := 2%Q]> (<["bookmark" := 5%Q]>
  (<["skip" := (-2)%Q]> (<["scroll" := 0.5%Q]> ∅)))).

Definition event_weight (event_type : string) : Q :=
  default 1%Q (weights !! event_type).

(** [min((duration or 0) / 600, 1.0)] *)
Definition time_factor (duration : option Z) : Q :=
  py_min (inject_Z (default 0%Z duration) / 600)%Q 1%Q.

(** [(datetime.now() - datetime.fromisoformat(timestamp)).days]:
    [timedelta.days] is the floor of the difference in days. *)
Definition days_ago (clk : clock) (timestamp : Z) : Z :=
  (py_now clk - timestamp) / seconds_per_day.

(** [0.9 ** days_ago] *)
Definition recency_factor (clk : clock) (timestamp : Z) : Q :=
  (0.9 ^ days_ago clk timestamp)%Q.

Definition event_score (clk : clock) (event_type : string)
    (duration : option Z) (timestamp : Z) : Q :=
  (event_weight event_type * time_factor duration
   * recency_factor clk timestamp)%Q.

(** A row of the outer [SELECT]. *)
Record pref_row : Type := {
  pr_article_id : Z;
  pr_event_type : string;
  pr_duration : option Z;
  pr_scroll_depth : Q;
  pr_timestamp : Z
}.

(** [e.timestamp > datetime('now', '-' || days || ' days')].  For a negative
    [days] the modifier reads ['--N days'], which SQLite rejects: the bound
    is NULL and no row passes. *)
Definition in_window (clk : clock) (days : Z) (timestamp : Z) : bool :=
  (0 <=? days) && (sql_now clk - days * seconds_per_day <? timestamp).

(** The outer query: [engagement e JOIN articles a JOIN article_categories ac
    JOIN categories c], one result row per joined combination. *)
Definition select_engagement_by_category (db : database) (clk : clock)
    (user_id : string) (days : Z) : list pref_row :=
  e ← engagement db;
  a ← articles db;
  ac ← article_categories db;
  c ← categories db;
  if bool_decide (e_article_id e = a_id a)
     && bool_decide (a_id a = ac_article_id ac)
     && bool_decide (ac_category_id ac = c_id c)
     && bool_decide (e_user_id e = user_id)
     && in_window clk days (e_timestamp e)
  then [ {| pr_article_id := ac_article_id ac;
            pr_event_type := e_event_type e;
            pr_duration := e_duration_seconds e;
            pr_scroll_depth := e_scroll_depth e;
            pr_timestamp := e_timestamp e |} ]
  else [].

(** The inner query: the names of the categories of one article. *)
Definition select_category_names (db : database) (article_id : Z)
  : list string :=
  c ← categories db;
  ac ← article_categories db;
  if bool_decide (c_id c = ac_category_id ac)
     && bool_decide (ac_article_id ac = article_id)
  then [c_name c] else [].

(** [category_scores[cat_name] = category_scores.get(cat_name, 0) + score] *)
Definition add_score (score : Q) (category_scores : gmap string Q)
    (cat_name : string) : gmap string Q :=
  <[cat_name := (default 0%Q (category_scores !! cat_name) + score)%Q]>
    category_scores.

(** The body of the outer loop for one row. *)
Definition accumulate_row (db : database) (clk : clock)
    (category_scores : gmap string Q) (row : pref_row) : gmap string Q :=
  fold_left
    (add_score (event_score clk (pr_event_type row) (pr_duration row)
                  (pr_timestamp row)))
    (select_category_names db (pr_article_id row))
    category_scores.

(** [category_scores] when the two loops are done. *)
Definition accumulate_scores (db : database) (clk : clock)
    (user_id : string) (days : Z) : gmap string Q :=
  fold_left (accumulate_row db clk)
    (select_engagement_by_category db clk user_id days) ∅.

(** [max(category_scores.values()) if category_scores else 1] *)
Definition max_score_of (category_scores : gmap string Q) : Q :=
  default 1%Q (dict_max category_scores).

(** The normalisation step: [max_score] and the dict comprehension. *)
Definition normalize_scores (category_scores : gmap string Q)
  : py_result (gmap string Q) :=
  dict_div_all category_scores (max_score_of category_scores).

Definition get_user_category_preferences (db : database) (clk : clock)
    (user_id : string) (days : Z) : py_result (gmap string Q) :=
  normalize_scores (accumulate_scores db clk user_id days).

End Engagement.

(** ** Text *)

(** Lower-casing of the ASCII letters; other bytes are unchanged.  This is
    [str.lower()] on ASCII text, and the case folding of SQLite's [LIKE]. *)
Definition ascii_lower (c : ascii) : ascii :=
  let n := nat_of_ascii c in
  if ((65 <=? n) && (n <=? 90))%nat then ascii_of_nat (n + 32) else c.

Fixpoint str_lower (s : string) : string :=
  match s with
  | EmptyString => EmptyString
  | String c s' => String (ascii_lower c) (str_lower s')
  end.

(** [kw in text] *)
Fixpoint str_contains (kw text : string) : bool :=
  String.prefix kw text
  || match text with
     | EmptyString => false
     | String _ text' => str_contains kw text'
     end.

(** [text LIKE pattern] of SQLite: [%] matches any run of characters, [_]
    one character, any other character itself up to ASCII case. *)
Fixpoint sql_like (pattern : string) : string → bool :=
  match pattern with
  | EmptyString => λ text, if text is EmptyString then true else false
  | String p pattern' =>
      if Ascii.eqb p "%"%char then
        fix any (text : string) : bool :=
          sql_like pattern' text
          || match text with
             | EmptyString => false
             | String _ text' => any text'
             end
      else if Ascii.eqb p "_"%char then
        λ text, match text with
                | EmptyString => false
                | String _ text' => sql_like pattern' text'
                end
      else
        λ text, match text with
                | EmptyString => false
                | String t text' =>
                    Ascii.eqb (ascii_lower p) (ascii_lower t)
                    && sql_like pattern' text'
                end
  end.

(** [LIMIT n]: a negative [n] is no limit. *)
Definition sql_limit {A : Type} (n : Z) (l : list A) : list A :=
  if n <? 0 then l else take (Z.to_nat n) l.

(** A stable sort by descending key: what [list.sort(key=..., reverse=True)]
    does, and the order taken for [ORDER BY ... DESC] (SQLite leaves the
    order of rows with equal keys open; table order is used here). *)
Fixpoint insert_desc {A : Type} (key : A → Q) (x : A) (l : list A) : list A :=
  match l with
  | [] => [x]
  | y :: l' =>
      if Qle_bool (key y) (key x) then x :: l
      else y :: insert_desc key x l'
  end.

Definition sort_desc {A : Type} (key : A → Q) (l : list A) : list A :=
  fold_right (insert_desc key) [] l.

(** The permutation selected by a list of draws: each draw picks, modulo
    the number of rows left, the next row; rows left when the draws run out
    keep their order. *)
Fixpoint shuffle_by {A : Type} (draws : list nat) (l : list A) : list A :=
  match draws with
  | [] => l
  | d :: draws' =>
      match l !! (d mod length l)%nat with
      | Some x => x :: shuffle_by draws' (delete (d mod length l)%nat l)
      | None => l
      end
  end.

(** ** recommendations.py *)

Module Recommendations.

(** The article dicts built from result rows.  The keys [access_count],
    [relevance_score] and [recommendation_type] are absent ([None]) until
    they are set. *)
Record article : Type := {
  art_id : Z;
  art_page_id : Z;
  art_title : string;
  art_content : string;
  art_categories : list string;
  art_reading_time : Z;
  art_word_count : Z;
  art_access_count : option Z;
  art_relevance_score : option Q;
  art_recommendation_type : option string
}.

(** [article['relevance_score'] = score;
     article['recommendation_type'] = kind] *)
Definition set_recommendation (score : Q) (kind : string) (a : article)
  : article :=
  {| art_id := art_id a;
     art_page_id := art_page_id a;
     art_title := art_title a;
     art_content := art_content a;
     art_categories := art_categories a;
     art_reading_time := art_reading_time a;
     art_word_count := art_word_count a;
     art_access_count := art_access_count a;
     art_relevance_score := Some score;
     art_recommendation_type := Some kind |}.

(** The first [CASE] of the weights query. *)
Definition sql_event_weight (event_type : string) : Q :=
  if String.eqb event_type "view" then 1%Q
  else if String.eqb event_type "read" then 2%Q
  else if String.eqb event_type "bookmark" then 5%Q
  else if String.eqb event_type "skip" then (-2)%Q
  else 0.5%Q.

(** [CASE WHEN duration_seconds > 0 THEN MIN(duration_seconds / 600.0, 1.0)
     ELSE 0.5 END]; a NULL duration takes the [ELSE] branch. *)
Definition sql_time_factor (duration : option Z) : Q :=
  match duration with
  | Some d => if 0 <? d then py_min (inject_Z d / 600)%Q 1%Q else 0.5%Q
  | None => 0.5%Q
  end.

Definition Qsum (l : list Q) : Q := fold_left Qplus l 0%Q.

(** [engagement e JOIN article_categories ac JOIN categories c
     WHERE e.user_id = ?]: category name and event of every joined row. *)
Definition select_user_events_by_category (db : database) (user_id : string)
  : list (string * engagement_row) :=
  e ← engagement db;
  ac ← article_categories db;
  c ← categories db;
  if bool_decide (e_article_id e = ac_article_id ac)
     && bool_decide (ac_category_id ac = c_id c)
     && bool_decide (e_user_id e = user_id)
  then [(c_name c, e)] else [].

(** One result row per group: name, the selected sum, the [ORDER BY] sum. *)
Definition weight_group (joined : list (string * engagement_row))
    (name : string) : string * Q * Q :=
  let events := (filter (λ r, r.1 = name) joined).*2 in
  (name,
   Qsum ((λ e, (sql_event_weight (e_event_type e)
                * sql_time_factor (e_duration_seconds e))%Q) <$> events),
   Qsum ((λ e, sql_event_weight (e_event_type e)) <$> events)).

(** The weights query: [GROUP BY c.name ORDER BY SUM(...) DESC LIMIT 50].
    The groups are listed in the order of the last joined row of each name
    before they are sorted; SQLite leaves the order of groups with equal
    sums open. *)
Definition select_category_sums (db : database) (user_id : string)
  : list (string * Q) :=
  let joined := select_user_events_by_category db user_id in
  let groups := weight_group joined <$> remove_dups joined.*1 in
  (λ g, (g.1.1, g.1.2)) <$> sql_limit 50 (sort_desc snd groups).

(** [weights[row[0]] = max(0.1, row[1])] for every row *)
Definition clamp_weights (rows : list (string * Q)) : gmap string Q :=
  fold_left (λ (w : gmap string Q) row, <[row.1 := py_max 0.1%Q row.2]> w)
    rows ∅.

(** [if weights: max_w = max(weights.values()); weights = {k: v / max_w}] *)
Definition normalize_weights (w : gmap string Q)
  : py_result (gmap string Q) :=
  match dict_max w with
  | None => Ok w
  | Some max_w => dict_div_all w max_w
  end.

Definition _get_category_weights (db : database) (user_id : string)
  : py_result (gmap string Q) :=
  normalize_weights (clamp_weights (select_category_sums db user_id)).

(** [SELECT DISTINCT article_id FROM engagement
     WHERE user_id = ? AND event_type IN ('view', 'read')] *)
Definition _get_read_articles (db : database) (user_id : string) : list Z :=
  remove_dups
    (e_article_id <$>
       filter (λ e, e_user_id e = user_id
                    ∧ (e_event_type e = "view" ∨ e_event_type e = "read"))
         (engagement db)).

Section WithJson.

(** [json.loads] on the text of the [categories] column: the decoded list
    of names, or the decoding error. *)
Variable json_loads : string → py_result (list string).

(** [json.loads(row[4]) if row[4] else []]: NULL and the empty text are
    falsy. *)
Definition load_categories (text : option string)
  : py_result (list string) :=
  match text with
  | None => Ok []
  | Some EmptyString => Ok []
  | Some s => json_loads s
  end.

(** The disjunction of [a.categories LIKE '%cat%'] over the keys of
    [category_weights]; no filter when there is no weight. *)
Definition category_filter (category_weights : gmap string Q)
    (a : article_row) : bool :=
  if dict_truthy category_weights then
    existsb (λ cat, match a_categories a with
                    | Some text => sql_like ("%" ++ cat ++ "%") text
                    | None => false
                    end) (map_to_list category_weights).*1
  else true.

(** The candidate rows of [_score_articles]. *)
Definition select_candidates (db : database)
    (category_weights : gmap string Q) (exclude_set : gset Z)
  : list article_row :=
  sql_limit 500
    (sort_desc (λ a, inject_Z (a_access_count a))
       (filter (λ a, 0 < a_id a
                     ∧ category_filter category_weights a = true
                     ∧ a_id a ∉ exclude_set)
          (articles db))).

(** The dict built from a row that has an [access_count] column. *)
Definition article_of_row (with_access_count : bool) (row : article_row)
  : py_result article :=
  cats ←ᵖ load_categories (a_categories row);
  Ok {| art_id := a_id row;
        art_page_id := a_page_id row;
        art_title := a_title row;
        art_content := a_content row;
        art_categories := cats;
        art_reading_time := a_reading_time row;
        art_word_count := a_word_count row;
        art_access_count :=
          if with_access_count then Some (a_access_count row) else None;
        art_relevance_score := None;
        art_recommendation_type := None |}.

(** [match_scores]: the weights of the article's categories that have one. *)
Definition match_scores (category_weights : gmap string Q)
    (article_cats : list string) : list Q :=
  omap (λ cat, category_weights !! cat) article_cats.

Definition category_score (category_weights : gmap string Q)
    (article_cats : list string) : Q :=
  if dict_truthy category_weights
     && negb (bool_decide (article_cats = []))
  then match match_scores category_weights article_cats with
       | [] => 0.5%Q
       | s :: rest => py_max_seq s rest
       end
  else 0.5%Q.

(** [min(article['access_count'] / 100, 1.0) * 0.2] *)
Definition popularity_boost (access_count : Z) : Q :=
  (py_min (inject_Z access_count / 100) 1 * 0.2)%Q.

Definition total_score (category_weights : gmap string Q)
    (article_cats : list string) (access_count : Z) : Q :=
  (category_score category_weights article_cats * 0.7
   + popularity_boost access_count * 0.3)%Q.

Definition score_row (category_weights : gmap string Q) (row : article_row)
  : py_result (article * Q) :=
  a ←ᵖ article_of_row true row;
  Ok (a, total_score category_weights (art_categories a)
           (a_access_count row)).

Definition _score_articles (db : database)
    (category_weights : gmap string Q) (exclude_set : gset Z)
  : py_result (list (article * Q)) :=
  scored ←ᵖ py_mapM (score_row category_weights)
              (select_candidates db category_weights exclude_set);
  Ok (sort_desc snd scored).

(** [SELECT ... FROM articles a WHERE a.id NOT IN (...)
     ORDER BY RANDOM() LIMIT count] *)
Definition _get_random_articles (db : database) (draws : list nat)
    (exclude_set : gset Z) (count : Z) : py_result (list article) :=
  py_mapM (article_of_row false)
    (sql_limit count
       (shuffle_by draws
          (filter (λ a, a_id a ∉ exclude_set) (articles db)))).

(** [int(count * (1 - feed_mix))] and [count - recommend_count] *)
Definition recommend_count_of (count : Z) (feed_mix : Q) : Z :=
  py_int (inject_Z count * (1 - feed_mix))%Q.

Definition random_count_of (count : Z) (feed_mix : Q) : Z :=
  count - recommend_count_of count feed_mix.

(** The recommended pool: the first [recommend_count] scored articles. *)
Definition recommended_pool (scored : list (article * Q))
    (recommend_count : Z) : list article :=
  if negb (bool_decide (scored = [])) && (0 <? recommend_count)
  then (λ p, set_recommendation p.2 "recommended" p.1)
         <$> py_slice_to scored recommend_count
  else [].

(** The discovery pool. *)
Definition discovery_pool (db : database) (draws : list nat)
    (exclude_set : gset Z) (random_count : Z) : py_result (list article) :=
  if 0 <? random_count then
    random_articles ←ᵖ _get_random_articles db draws exclude_set random_count;
    Ok (set_recommendation 0.3%Q "discovery" <$> random_articles)
  else Ok [].

(** [get_recommendations]; [sql_draws] drives [ORDER BY RANDOM()] and
    [py_draws] drives [random.shuffle]. *)
Definition get_recommendations (db : database)
    (sql_draws py_draws : list nat) (user_id : string) (count : Z)
    (feed_mix : Q) (excluded_articles : list Z) : py_result (list article) :=
  category_weights ←ᵖ _get_category_weights db user_id;
  let read_articles := _get_read_articles db user_id in
  let exclude_set : gset Z := list_to_set (excluded_articles ++ read_articles) in
  scored_articles ←ᵖ _score_articles db category_weights exclude_set;
  let recommend_count := recommend_count_of count feed_mix in
  let random_count := random_count_of count feed_mix in
  let recommended := recommended_pool scored_articles recommend_count in
  discovery ←ᵖ discovery_pool db sql_draws exclude_set random_count;
  Ok (py_slice_to (shuffle_by py_draws (recommended ++ discovery)) count).

End WithJson.

End Recommendations.

(** ** server.py: the classifier *)

Module Server.

Definition CATEGORY_KEYWORDS : list (string * list string) :=
  [ ("Science", ["physics"; "chemistry"; "biology"; "scientist"; "research";
                 "experiment"; "scientific"; "theory"; "discover"]);
    ("History", ["war"; "battle"; "century"; "ancient"; "historic";
                 "dynasty"; "empire"; "revolt"; "treaty"]);
    ("Geography", ["country"; "city"; "river"; "mountain"; "continent";
                   "island"; "region"; "capital"; "population"]);
    ("Literature", ["book"; "author"; "novel"; "poem"; "playwright"; "wrote";
                    "published"; "literary"; "fiction"]);
    ("Arts", ["painting"; "sculpture"; "music"; "film"; "artist"; "museum";
              "gallery"; "exhibition"]);
    ("Sports", ["game"; "player"; "team"; "championship"; "tournament";
                "league"; "score"; "match"]);
    ("Politics", ["government"; "election"; "president"; "law"; "parliament";
                  "minister"; "senate"; "congress"]);
    ("Religion", ["god"; "church"; "bible"; "religious"; "faith"; "christian";
                  "islam"; "jewish"; "temple"]);
    ("Nature", ["animal"; "plant"; "species"; "ecosystem"; "environment";
                "bird"; "fish"; "mammal"]);
    ("Technology", ["computer"; "software"; "internet"; "engineering";
                    "patent"; "invented"; "digital"]);
    ("People", ["born"; "died"; "biography"; "king"; "queen"; "president";
                "scientist"; "author"; "actor"]) ].

Definition person_keywords : list string :=
  ["born"; "died"; "king"; "queen"; "president"; "emperor"; "scientist";
   "author"; "actor"].

(** [sum(1 for kw in keywords if kw in text_lower)] *)
Definition keyword_score (text_lower : string) (keywords : list string)
  : nat :=
  length (filter (λ kw, str_contains kw text_lower = true) keywords).

(** The categories appended by the loop over [CATEGORY_KEYWORDS]. *)
Definition keyword_categories (text_lower : string) : list string :=
  (filter (λ ck, (0 < keyword_score text_lower ck.2)%nat)
     CATEGORY_KEYWORDS).*1.

Definition extract_categories (text : string) : list string :=
  let text_lower := str_lower text in
  let categories := keyword_categories text_lower in
  let categories :=
    if existsb (λ kw, str_contains kw text_lower) person_keywords
    then if bool_decide ("People" ∈@{list string} categories) then categories
         else (categories ++ ["People"])%list
    else categories in
  if bool_decide (categories = []) then ["General"] else categories.

End Server.

(** ** A decoder for the stored category lists

    The texts of the [categories] column used in the examples below are
    JSON arrays of plain names, such as [["Science", "History"]] written with
    double quotes.  On such texts [json.loads] is the following scan. *)

Inductive json_state : Type :=
  | JStart            (* before the opening bracket *)
  | JOpen             (* after the opening bracket *)
  | JName (name : string)   (* inside a quoted name *)
  | JAfterName        (* after a closing quote *)
  | JAfterComma
  | JDone
  | JFail.

Definition double_quote : ascii := "034"%char.

Definition is_json_space (c : ascii) : bool :=
  Ascii.eqb c " "%char || Ascii.eqb c "010"%char
  || Ascii.eqb c "013"%char || Ascii.eqb c "009"%char.

Definition json_step (st : json_state * list string) (c : ascii)
  : json_state * list string :=
  let '(state, names) := st in
  match state with
  | JStart =>
      if is_json_space c then (JStart, names)
      else if Ascii.eqb c "["%char then (JOpen, names) else (JFail, names)
  | JOpen =>
      if is_json_space c then (JOpen, names)
      else if Ascii.eqb c "]"%char then (JDone, names)
      else if Ascii.eqb c double_quote then (JName "", names)
      else (JFail, names)
  | JName name =>
      if Ascii.eqb c double_quote then (JAfterName, (names ++ [name])%list)
      else if Ascii.eqb c "\"%char then (JFail, names)
      else (JName (name ++ String c ""), names)
  | JAfterName =>
      if is_json_space c then (JAfterName, names)
      else if Ascii.eqb c ","%char then (JAfterComma, names)
      else if Ascii.eqb c "]"%char then (JDone, names)
      else (JFail, names)
  | JAfterComma =>
      if is_json_space c then (JAfterComma, names)
      else if Ascii.eqb c double_quote then (JName "", names)
      else (JFail, names)
  | JDone =>
      if is_json_space c then (JDone, names) else (JFail, names)
  | JFail => (JFail, names)
  end.

Definition json_loads_names (s : string) : py_result (list string) :=
  match fold_left json_step (list_ascii_of_string s) (JStart, []) with
  | (JDone, names) => Ok names
  | _ => Raise JSONDecodeError
  end.

(** The text [json.dumps] writes for a list of plain names. *)
Definition json_names (names : list string) : string :=
  "[" ++ String.concat ", "
           ((λ n, String double_quote (n ++ String double_quote "")) <$> names)
  ++ "]".

(** ** Sample databases *)

Module Samples.

Definition now : clock := {| sql_now := 1700000000; py_now := 1700000000 |}.

Definition a_minute_ago : Z := 1700000000 - 60.

Definition sample_article (i : Z) (names : list string) : article_row :=
  {| a_id := i;
     a_page_id := 1000 + i;
     a_title := "Title";
     a_content := "Content";
     a_categories := Some (json_names names);
     a_reading_time := 1;
     a_word_count := 200;
     a_access_count := 0 |}.

(** An event of user [captain], one minute old. *)
Definition sample_event (i article_id : Z) (kind : string) (duration : Z)
  : engagement_row :=
  {| e_id := i;
     e_article_id := article_id;
     e_user_id := "captain";
     e_event_type := kind;
     e_duration_seconds := Some duration;
     e_scroll_depth := 0%Q;
     e_timestamp := a_minute_ago |}.

Definition link (article_id category_id : Z) : article_category_row :=
  {| ac_article_id := article_id; ac_category_id := category_id |}.

Definition science : category_row := {| c_id := 1; c_name := "Science" |}.
Definition history : category_row := {| c_id := 2; c_name := "History" |}.
Definition sports : category_row := {| c_id := 3; c_name := "Sports" |}.


(** One [Sports] article and one skip of it, after [duration] seconds. *)
Definition db_one_skip (duration : Z) : database :=
  {| articles := [sample_article 1 ["Sports"]];
     categories := [sports];
     article_categories := [link 1 3];
     engagement := [sample_event 1 1 "skip" duration] |}.

(** Article 1 is in [Science] and [History] and was viewed once for ten
    minutes. *)
Definition db_two_categories : database :=
  {| articles := [sample_article 1 ["Science"; "History"]];
     categories := [science; history];
     article_categories := [link 1 1; link 1 2];
     engagement := [sample_event 1 1 "view" 600] |}.

(** As [db_two_categories], with a second article in [History] only, also
    viewed once for ten minutes. *)
Definition db_shared_category : database :=
  {| articles := [sample_article 1 ["Science"; "History"];
                  sample_article 2 ["History"]];
     categories := [science; history];
     article_categories := [link 1 1; link 1 2; link 2 2];
     engagement := [sample_event 1 1 "view" 600;
                    sample_event 2 2 "view" 600] |}.

(** A ten-minute view in [Science] and a ten-minute skip in [Sports]. *)
Definition db_view_and_skip : database :=
  {| articles := [sample_article 1 ["Science"]; sample_article 2 ["Sports"]];
     categories := [science; sports];
     article_categories := [link 1 1; link 2 3];
     engagement := [sample_event 1 1 "view" 600;
                    sample_event 2 2 "skip" 600] |}.

(** One article, no engagement. *)
Definition db_single_article : database :=
  {| articles := [sample_article 1 ["Science"]];
     categories := [science];
     article_categories := [link 1 1];
     engagement := [] |}.

(** Three articles, no engagement. *)
Definition db_three_articles : database :=
  {| articles := [sample_article 1 ["Science"]; sample_article 2 ["History"];
                  sample_article 3 ["Sports"]];
     categories := [science; history; sports];
     article_categories := [link 1 1; link 2 2; link 3 3];
     engagement := [] |}.

(** Twenty articles: article 1 in [Science], articles 2 to 20 in [History];
    the user bookmarked article 1. *)
Definition db_twenty_articles : database :=
  {| articles := sample_article 1 ["Science"]
                 :: ((λ i, sample_article i ["History"]) <$> seqZ 2 19);
     categories := [science; history];
     article_categories := link 1 1 :: ((λ i, link i 2) <$> seqZ 2 19);
     engagement := [sample_event 1 1 "bookmark" 600] |}.

End Samples.

(** ** Predicates used in the statements *)

(** The dict [d] has the key [k], with a value equal to [q]. *)
Definition has_weight (d : gmap string Q) (k : string) (q : Q) : Prop :=
  ∃ v, d !! k = Some v ∧ (v == q)%Q.

(** The five event kinds of [EventType]. *)
Definition event_kinds : list string :=
  ["view"; "read"; "bookmark"; "skip"; "scroll"].

(** An event with an unrecognised kind relabelled as a view. *)
Definition as_view (e : engagement_row) : engagement_row :=
  if bool_decide (e_event_type e ∈ event_kinds) then e
  else {| e_id := e_id e;
          e_article_id := e_article_id e;
          e_user_id := e_user_id e;
          e_event_type := "view";
          e_duration_seconds := e_duration_seconds e;
          e_scroll_depth := e_scroll_depth e;
          e_timestamp := e_timestamp e |}.

Definition with_engagement (db : database) (log : list engagement_row)
  : database :=
  {| articles := articles db;
     categories := categories db;
     article_categories := article_categories db;
     engagement := log |}.

(** The event log of [db] with one more event at its end. *)
Definition with_event (db : database) (e : engagement_row) : database :=
  with_engagement db (engagement db ++ [e])%list.

(** The article [article_id] is stored once and has one link, to the one
    category row [c]. *)
Definition only_category (db : database) (article_id : Z) (c : category_row)
  : Prop :=
  ∃ a ac,
    filter (λ a', a_id a' = article_id) (articles db) = [a]
    ∧ filter (λ ac', ac_article_id ac' = article_id) (article_categories db)
      = [ac]
    ∧ filter (λ c', c_id c' = ac_category_id ac) (categories db) = [c].

(** Two rows of the outer query that lead to the same updates of
    [category_scores]. *)
Definition same_score (clk : clock) (r1 r2 : Engagement.pref_row) : Prop :=
  Engagement.pr_article_id r1 = Engagement.pr_article_id r2
  ∧ Engagement.event_score clk (Engagement.pr_event_type r1)
      (Engagement.pr_duration r1) (Engagement.pr_timestamp r1)
    = Engagement.event_score clk (Engagement.pr_event_type r2)
        (Engagement.pr_duration r2) (Engagement.pr_timestamp r2).

(** The dict of a result, empty when an exception was raised. *)
Definition dict_of (r : py_result (gmap string Q)) : gmap string Q :=
  match r with
  | Ok d => d
  | Raise _ => ∅
  end.

Module SampleResults.

(** The preferences computed from [Samples.db_view_and_skip]. *)
Definition view_and_skip_preferences : gmap string Q :=
  dict_of (Engagement.get_user_category_preferences Samples.db_view_and_skip
             Samples.now "captain" 30).


(** The feed or, when an exception was raised, the empty list. *)
Definition feed_of (r : py_result (list Recommendations.article))
  : list Recommendations.article :=
  match r with
  | Ok feed => feed
  | Raise _ => []
  end.

(** A feed of two entries built from [Samples.db_three_articles], article 3
    being excluded by the caller. *)
Definition three_articles_feed : list Recommendations.article :=
  feed_of (Recommendations.get_recommendations json_loads_names
             Samples.db_three_articles [1; 0]%nat [2; 0]%nat "captain" 2
             0.5%Q [3]).


End SampleResults.


Definition is_recommended (a : Recommendations.article) : Prop :=
  Recommendations.art_recommendation_type a = Some "recommended".

Definition is_discovery (a : Recommendations.article) : Prop :=
  Recommendations.art_recommendation_type a = Some "discovery".


(** Article id and recommendation type of a feed entry. *)
Definition entry_key (a : Recommendations.article) : Z * option string :=
  (Recommendations.art_id a, Recommendations.art_recommendation_type a).

(** The exclusion set of a feed build. *)
Definition exclude_set_of (db : database) (user_id : string)
    (excluded_articles : list Z) : gset Z :=
  list_to_set
    (excluded_articles ++ Recommendations._get_read_articles db user_id).

(** ** engagement.py: summaries and sessions *)

Module EngagementTracker.

(** [SUM] over no row is not needed here; [AVG] over no value is NULL. *)
Definition sql_avg (values : list Q) : option Q :=
  match values with
  | [] => None
  | _ :: _ =>
      Some (fold_left Qplus values 0 / inject_Z (Z.of_nat (length values)))%Q
  end.

(** The dict returned by [get_article_engagement]. *)
Record engagement_summary : Type := {
  total_views : Z;
  avg_duration : Q;
  avg_scroll : Q;
  bookmarks : Z;
  skips : Z
}.

(** [FROM engagement WHERE article_id = ? AND user_id = ?] *)
Definition events_of (db : database) (article_id : Z) (user_id : string)
  : list engagement_row :=
  filter (λ e, e_article_id e = article_id ∧ e_user_id e = user_id)
    (engagement db).

(** The count of the rows with [event_type = kind] *)
Definition count_kind (kind : string) (events : list engagement_row) : Z :=
  Z.of_nat (length (filter (λ e, e_event_type e = kind) events)).

(** [get_article_engagement]: [AVG] skips NULL durations; [x or 0] turns
    NULL (and zero) into 0. *)
Definition get_article_engagement (db : database) (article_id : Z)
    (user_id : string) : engagement_summary :=
  let events := events_of db article_id user_id in
  {| total_views := Z.of_nat (length events);
     avg_duration :=
       default 0%Q
         (sql_avg (inject_Z <$> omap e_duration_seconds events));
     avg_scroll := default 0%Q (sql_avg (e_scroll_depth <$> events));
     bookmarks := count_kind "bookmark" events;
     skips := count_kind "skip" events |}.

(** A row of [reading_sessions], in the column order that
    [get_recent_sessions] reads: id, user_id, start_time, end_time,
    articles_read, total_duration_seconds. *)
Record session_row : Type := {
  s_id : Z;
  s_user_id : string;
  s_start_time : Z;
  s_end_time : option Z;
  s_articles_read : option Z;
  s_total_duration_seconds : option Z
}.

(** The dict built by [get_recent_sessions] for one row. *)
Record session_info : Type := {
  si_id : Z;
  si_start_time : Z;
  si_end_time : option Z;
  si_articles_read : option Z;
  si_total_duration : option Z
}.

Definition session_info_of (row : session_row) : session_info :=
  {| si_id := s_id row;
     si_start_time := s_start_time row;
     si_end_time := s_end_time row;
     si_articles_read := s_articles_read row;
     si_total_duration := s_total_duration_seconds row |}.

(** [SELECT all columns FROM reading_sessions WHERE user_id = ?
     ORDER BY start_time DESC LIMIT ?] *)
Definition get_recent_sessions (sessions : list session_row)
    (user_id : string) (limit : Z) : list session_info :=
  session_info_of
    <$> sql_limit limit
          (sort_desc (λ row, inject_Z (s_start_time row))
             (filter (λ row, s_user_id row = user_id) sessions)).

Section WithSchemaDefaults.

(** Modelled from the spec: the schema of [reading_sessions] (schema.sql)
    is not among the sources.  The id is an integer primary key assigned as
    one more than the largest id in the table and [start_time] defaults to
    the current time; the defaults of the columns [end_time],
    [articles_read] and [total_duration_seconds] are left open. *)
Variable default_end_time : option Z.
Variable default_articles_read : option Z.
Variable default_total_duration : option Z.

Definition next_session_id (sessions : list session_row) : Z :=
  1 + fold_right Z.max 0 (s_id <$> sessions).

(** [INSERT INTO reading_sessions (user_id) VALUES (?)], then [lastrowid]. *)
Definition start_session (sessions : list session_row) (clk : clock)
    (user_id : string) : list session_row * Z :=
  let session_id := next_session_id sessions in
  ((sessions ++ [ {| s_id := session_id;
                     s_user_id := user_id;
                     s_start_time := sql_now clk;
                     s_end_time := default_end_time;
                     s_articles_read := default_articles_read;
                     s_total_duration_seconds := default_total_duration |} ])
   %list, session_id).

End WithSchemaDefaults.

(** [UPDATE reading_sessions SET end_time = CURRENT_TIMESTAMP,
     articles_read = ?, total_duration_seconds = ? WHERE id = ?] *)
Definition end_session (sessions : list session_row) (clk : clock)
    (session_id : Z) (articles_read : Z) (total_duration : Z)
  : list session_row :=
  (λ row, if bool_decide (s_id row = session_id)
          then {| s_id := s_id row;
                  s_user_id := s_user_id row;
                  s_start_time := s_start_time row;
                  s_end_time := Some (sql_now clk);
                  s_articles_read := Some articles_read;
                  s_total_duration_seconds := Some total_duration |}
          else row) <$> sessions.

End EngagementTracker.

(** ** recommendations.py: browsing and searching *)

Module RecommendationEngine.

Section WithJson.

Variable json_loads : string → py_result (list string).

(** [articles a JOIN article_categories ac JOIN categories c
     WHERE c.name = ? ORDER BY a.access_count DESC LIMIT ?] *)
Definition select_by_category (db : database) (category : string)
  : list article_row :=
  a ← articles db;
  ac ← article_categories db;
  c ← categories db;
  if bool_decide (a_id a = ac_article_id ac)
     && bool_decide (ac_category_id ac = c_id c)
     && bool_decide (c_name c = category)
  then [a] else [].

Definition get_category_browse (db : database) (category : string)
    (count : Z) : py_result (list Recommendations.article) :=
  py_mapM (Recommendations.article_of_row json_loads true)
    (sql_limit count
       (sort_desc (λ a, inject_Z (a_access_count a))
          (select_by_category db category))).

(** [WHERE a.title LIKE ? OR a.content LIKE ?] with the pattern
    [f'%{query}%'] *)
Definition matches_query (query : string) (a : article_row) : bool :=
  sql_like ("%" ++ query ++ "%") (a_title a)
  || sql_like ("%" ++ query ++ "%") (a_content a).

Definition search_articles (db : database) (query : string) (count : Z)
  : py_result (list Recommendations.article) :=
  py_mapM (Recommendations.article_of_row json_loads false)
    (sql_limit count
       (sort_desc (λ a, inject_Z (a_access_count a))
          (filter (λ a, matches_query query a = true) (articles db)))).

End WithJson.

End RecommendationEngine.

(** ** server.py: mapping of Wikipedia categories *)

Module ServerCategories.

(** [category_map] of [map_categories]. *)
Definition category_map : list (string * list string) :=
  [ ("Science", ["science"; "scientist"; "physics"; "chemistry"; "biology";
                 "research"]);
    ("History", ["history"; "war"; "battle"; "century"; "ancient"; "empire"]);
    ("Geography", ["geography"; "country"; "city"; "river"; "mountain";
                   "island"]);
    ("Literature", ["literature"; "book"; "author"; "novel"; "poem";
                    "writer"]);
    ("Arts", ["art"; "painting"; "sculpture"; "music"; "film"; "artist"]);
    ("Sports", ["sport"; "game"; "player"; "team"; "championship"]);
    ("Politics", ["politics"; "government"; "president"; "minister";
                  "election"]);
    ("Religion", ["religion"; "god"; "church"; "faith"; "religious"]);
    ("Nature", ["nature"; "animal"; "plant"; "species"; "environment"]);
    ("Technology", ["technology"; "computer"; "software"; "internet";
                    "engineering"]);
    ("People", ["people"; "born"; "died"; "king"; "queen"; "president"]) ].

(** The categories added to [matched] for one Wikipedia category. *)
Definition matched_by (wiki_cat : string) : list string :=
  let wiki_cat_lower := str_lower wiki_cat in
  (filter (λ ck : string * list string,
             existsb (λ kw, str_contains kw wiki_cat_lower) ck.2 = true)
     category_map).*1.

(** The set [matched] when the loop is done. *)
Definition matched (wiki_categories : list string) : gset string :=
  list_to_set (wiki_categories ≫= matched_by).

(** [list(matched) if matched else ['General']]; the order in which Python
    lists a set is not fixed, only the members of the result are meant. *)
Definition map_categories (wiki_categories : list string) : list string :=
  if bool_decide (matched wiki_categories = ∅) then ["General"]
  else elements (matched wiki_categories).

End ServerCategories.

Module MoreSampleResults.

(** A table with one open session of [captain]. *)
Definition one_session : list EngagementTracker.session_row :=
  (EngagementTracker.start_session None None None [] Samples.now
     "captain").1.

(** The scored list of [Samples.db_three_articles] without weights,
    article 3 being excluded. *)
Definition three_scored : list (Recommendations.article * Q) :=
  match Recommendations._score_articles json_loads_names
          Samples.db_three_articles ∅ {[3]} with
  | Ok scored => scored
  | Raise _ => []
  end.

(** Feeds of [Samples.db_three_articles] at the two ends of the mix. *)
Definition discovery_only_feed : list Recommendations.article :=
  SampleResults.feed_of
    (Recommendations.get_recommendations json_loads_names
       Samples.db_three_articles [1; 0]%nat [2; 0]%nat "captain" 2 1%Q []).

Definition ranked_only_feed : list Recommendations.article :=
  SampleResults.feed_of
    (Recommendations.get_recommendations json_loads_names
       Samples.db_three_articles [1; 0]%nat [2; 0]%nat "captain" 2 0%Q []).

(** A feed of two entries with [feed_mix = -1.0]: the ranked pool holds all
    three articles. *)
Definition truncated_feed : list Recommendations.article :=
  SampleResults.feed_of
    (Recommendations.get_recommendations json_loads_names
       Samples.db_three_articles [1; 0]%nat [2; 0]%nat "captain" 2 (-1)%Q
       []).

(** A random draw of up to five articles, article 3 being excluded. *)
Definition three_random : list Recommendations.article :=
  SampleResults.feed_of
    (Recommendations._get_random_articles json_loads_names
       Samples.db_three_articles [2; 0]%nat {[3]} 5).

(** [Samples.db_three_articles] after [captain] viewed article 2, and a
    feed built from it. *)
Definition db_after_view : database :=
  match Engagement.record_event Samples.db_three_articles Samples.now 2
          "view" "captain" 30 0%Q with
  | Ok (db', _) => db'
  | Raise _ => Samples.db_three_articles
  end.

(** [Samples.db_view_and_skip] after [captain] bookmarked article 1. *)
Definition db_after_bookmark : database :=
  match Engagement.record_event Samples.db_view_and_skip Samples.now 1
          "bookmark" "captain" 40 0%Q with
  | Ok (db', _) => db'
  | Raise _ => Samples.db_view_and_skip
  end.

Definition feed_after_view : list Recommendations.article :=
  SampleResults.feed_of
    (Recommendations.get_recommendations json_loads_names db_after_view
       [1; 0]%nat [2; 0]%nat "captain" 3 0.5%Q []).

(** Browsing [History] and searching for [tit] in the samples. *)
Definition history_browse : list Recommendations.article :=
  SampleResults.feed_of
    (RecommendationEngine.get_category_browse json_loads_names
       Samples.db_twenty_articles "History" 5).

Definition title_search : list Recommendations.article :=
  SampleResults.feed_of
    (RecommendationEngine.search_articles json_loads_names
       Samples.db_three_articles "TIT" 2).

End MoreSampleResults.

(** ** Further predicates used in the statements *)

(** Descending order of the keys. *)
Definition sorted_desc {A : Type} (key : A → Q) (l : list A) : Prop :=
  StronglySorted (λ x y, (key y <= key x)%Q) l.

(** The characters [%] and [_] do not occur in [s]. *)
Fixpoint no_wildcard (s : string) : bool :=
  match s with
  | EmptyString => true
  | String c s' =>
      negb (Ascii.eqb c "%"%char) && negb (Ascii.eqb c "_"%char)
      && no_wildcard s'
  end.

(** The names that the classifiers can return. *)
Definition taxonomy : list string :=
  ["Science"; "History"; "Geography"; "Literature"; "Arts"; "Sports";
   "Politics"; "Religion"; "Nature"; "Technology"; "People"; "General"].

(** * Properties *)

(** ** Python's [max] on rationals *)

Lemma py_max_cases (a b : Q) : py_max a b = a ∨ py_max a b = b.
Proof. unfold py_max. destruct (Qle_bool b a); auto. Qed.

Lemma py_max_ge_l (a b : Q) : (a <= py_max a b)%Q.
Proof.
  unfold py_max. destruct (Qle_bool b a) eqn:E.
  - apply Qle_refl.
  - apply Qlt_le_weak, Qnot_le_lt. intros H.
    apply Qle_bool_iff in H. congruence.
Qed.

Lemma py_max_ge_r (a b : Q) : (b <= py_max a b)%Q.
Proof.
  unfold py_max. destruct (Qle_bool b a) eqn:E.
  - by apply Qle_bool_iff.
  - apply Qle_refl.
Qed.

Lemma py_max_seq_ge_init (l : list Q) (x : Q) : (x <= py_max_seq x l)%Q.
Proof.
  unfold py_max_seq. revert x.
  induction l as [|y l IH]; intros x; simpl.
  - apply Qle_refl.
  - eapply Qle_trans; [apply (py_max_ge_l x y) | apply IH].
Qed.

Lemma py_max_seq_ge (l : list Q) (x y : Q) :
  y ∈ x :: l → (y <= py_max_seq x l)%Q.
Proof.
  unfold py_max_seq. revert x.
  induction l as [|z l IH]; intros x Hy; simpl.
  - apply list_elem_of_singleton in Hy as ->. apply Qle_refl.
  - apply elem_of_cons in Hy as [-> | Hy].
    + eapply Qle_trans; [apply (py_max_ge_l x z) | apply py_max_seq_ge_init].
    + apply elem_of_cons in Hy as [-> | Hy].
      * eapply Qle_trans; [apply (py_max_ge_r x z) | apply py_max_seq_ge_init].
      * apply IH. by apply list_elem_of_further.
Qed.

Lemma py_max_seq_elem (l : list Q) (x : Q) : py_max_seq x l ∈ x :: l.
Proof.
  unfold py_max_seq. revert x.
  induction l as [|z l IH]; intros x; simpl.
  - apply list_elem_of_here.
  - specialize (IH (py_max x z)).
    apply elem_of_cons in IH as [-> | IH].
    + destruct (py_max_cases x z) as [-> | ->].
      * apply list_elem_of_here.
      * apply list_elem_of_further, list_elem_of_here.
    + by do 2 apply list_elem_of_further.
Qed.

(** ** Dicts of weights *)

Lemma dict_values_elem (d : gmap string Q) (v : Q) :
  v ∈ dict_values d ↔ ∃ k, d !! k = Some v.
Proof.
  unfold dict_values. rewrite list_elem_of_fmap. split.
  - intros [[k w] [-> Hkw]]. exists k. by apply elem_of_map_to_list.
  - intros [k Hk]. exists (k, v). split; [done|].
    by apply elem_of_map_to_list.
Qed.

Lemma dict_values_nil (d : gmap string Q) : dict_values d = [] ↔ d = ∅.
Proof.
  unfold dict_values. split.
  - intros H. apply fmap_nil_inv in H. by apply map_to_list_empty_iff.
  - intros ->. by rewrite map_to_list_empty.
Qed.

Lemma dict_max_None (d : gmap string Q) : dict_max d = None ↔ d = ∅.
Proof.
  unfold dict_max. rewrite <- dict_values_nil.
  destruct (dict_values d); split; congruence.
Qed.

Lemma dict_max_attained (d : gmap string Q) (m : Q) :
  dict_max d = Some m → ∃ k, d !! k = Some m.
Proof.
  unfold dict_max. destruct (dict_values d) as [|v vs] eqn:E; [done|].
  intros [= <-]. apply dict_values_elem. rewrite E. apply py_max_seq_elem.
Qed.

Lemma dict_max_upper (d : gmap string Q) (m : Q) (k : string) (v : Q) :
  dict_max d = Some m → d !! k = Some v → (v <= m)%Q.
Proof.
  unfold dict_max. destruct (dict_values d) as [|w ws] eqn:E; [done|].
  intros [= <-] Hk. apply py_max_seq_ge. rewrite <- E.
  apply dict_values_elem. eauto.
Qed.

Lemma dict_div_all_Ok (d : gmap string Q) (m : Q) :
  ¬ (m == 0)%Q → dict_div_all d m = Ok ((λ v, (v / m)%Q) <$> d).
Proof.
  intros Hm. unfold dict_div_all.
  destruct (dict_values d) eqn:E.
  - apply dict_values_nil in E as ->. by rewrite fmap_empty.
  - destruct (Qeq_bool m 0) eqn:Em; [|done].
    apply Qeq_bool_iff in Em. contradiction.
Qed.

Lemma dict_div_all_inv (d r : gmap string Q) (m : Q) :
  dict_div_all d m = Ok r →
  r = (λ v, (v / m)%Q) <$> d ∧ (d = ∅ ∨ ¬ (m == 0)%Q).
Proof.
  unfold dict_div_all. destruct (dict_values d) eqn:E.
  - apply dict_values_nil in E as ->. intros [= <-].
    rewrite fmap_empty. auto.
  - destruct (Qeq_bool m 0) eqn:Em; [done|]. intros [= <-].
    split; [done|]. right. intros H. apply Qeq_bool_iff in H. congruence.
Qed.

Lemma Qdiv_self (m : Q) : ¬ (m == 0)%Q → (m / m == 1)%Q.
Proof. intros H. unfold Qdiv. by apply Qmult_inv_r. Qed.

Lemma Qdiv_le_1_pos (v m : Q) : (0 < m)%Q → (v <= m)%Q → (v / m <= 1)%Q.
Proof.
  intros Hm Hv. apply Qle_shift_div_r; [done|]. by rewrite Qmult_1_l.
Qed.

Lemma Qdiv_ge_1_neg (v m : Q) : (m < 0)%Q → (v <= m)%Q → (1 <= v / m)%Q.
Proof.
  intros Hm Hv.
  assert (Hm' : (0 < - m)%Q) by (apply (Qopp_lt_compat m 0) in Hm; done).
  assert (E : (v / m == (- v) / (- m))%Q).
  { field. intros H. rewrite H in Hm. by apply Qlt_irrefl in Hm. }
  rewrite E. apply Qle_shift_div_l; [done|]. rewrite Qmult_1_l.
  by apply Qopp_le_compat.
Qed.

(** ** engagement.py: scoring of events *)

Section EngagementFacts.
Import Engagement.

Lemma event_weight_unrecognised (event_type : string) :
  event_type ∉ event_kinds → weights !! event_type = None.
Proof.
  intros H. unfold weights, event_kinds in *.
  repeat (rewrite lookup_insert_ne;
          [| intros <-; apply H; repeat constructor]).
  apply lookup_empty.
Qed.

Lemma as_view_weight (e : engagement_row) :
  event_weight (e_event_type (as_view e)) = event_weight (e_event_type e).
Proof.
  unfold as_view. case_bool_decide as H; [done|]. simpl.
  unfold event_weight. by rewrite (event_weight_unrecognised _ H).
Qed.

Lemma as_view_fields (e : engagement_row) :
  e_article_id (as_view e) = e_article_id e
  ∧ e_user_id (as_view e) = e_user_id e
  ∧ e_duration_seconds (as_view e) = e_duration_seconds e
  ∧ e_timestamp (as_view e) = e_timestamp e.
Proof. unfold as_view. by case_bool_decide. Qed.

Lemma accumulate_row_same_score (db : database) (clk : clock)
    (d : gmap string Q) (r1 r2 : pref_row) :
  same_score clk r1 r2 → accumulate_row db clk d r1 = accumulate_row db clk d r2.
Proof. intros [Hid Hs]. unfold accumulate_row. by rewrite Hid, Hs. Qed.

Lemma fold_accumulate_same_score (db : database) (clk : clock)
    (rows1 rows2 : list pref_row) :
  Forall2 (same_score clk) rows1 rows2 →
  ∀ d, fold_left (accumulate_row db clk) rows1 d
       = fold_left (accumulate_row db clk) rows2 d.
Proof.
  induction 1 as [|r1 r2 rows1 rows2 Hr _ IH]; intros d; simpl; [done|].
  by rewrite (accumulate_row_same_score _ _ _ _ _ Hr), IH.
Qed.

Lemma select_as_view (db : database) (clk : clock) (user_id : string)
    (days : Z) :
  Forall2 (same_score clk)
    (select_engagement_by_category
       (with_engagement db (as_view <$> engagement db)) clk user_id days)
    (select_engagement_by_category db clk user_id days).
Proof.
  unfold select_engagement_by_category, with_engagement; simpl.
  apply Forall2_bind, Forall2_fmap_l, Forall_Forall2_diag, Forall_forall.
  intros e _.
  destruct (as_view_fields e) as (Ha & Hu & Hd & Ht).
  apply Forall2_bind, Forall_Forall2_diag, Forall_forall. intros a _.
  apply Forall2_bind, Forall_Forall2_diag, Forall_forall. intros ac _.
  apply Forall2_bind, Forall_Forall2_diag, Forall_forall. intros c _.
  rewrite Ha, Hu, Ht.
  match goal with |- Forall2 _ (if ?b then _ else _) _ => destruct b end;
    constructor; [|constructor].
  split; simpl; [done|].
  unfold event_score. by rewrite as_view_weight, ?Hd, ?Ht.
Qed.

Lemma bind_elem_nil {A B : Type} (f : A → list B) (l : list A) :
  (∀ x, x ∈ l → f x = []) → l ≫= f = [].
Proof.
  induction l as [|x l IH]; intros Hf; [done|].
  rewrite bind_cons, (Hf x) by apply list_elem_of_here.
  apply IH. intros y Hy. apply Hf. by apply list_elem_of_further.
Qed.

(** A bind in which one element only, picked out by [P], contributes. *)
Lemma bind_filter_single {A B : Type} (P : A → Prop)
    `{∀ x, Decision (P x)} (f : A → list B) (l : list A) (x : A) :
  filter P l = [x] → (∀ y, y ∈ l → ¬ P y → f y = []) → l ≫= f = f x.
Proof.
  induction l as [|y l IH]; intros Hx Hf; [done|].
  rewrite filter_cons in Hx. rewrite bind_cons.
  destruct (decide (P y)) as [Hy | Hy].
  - injection Hx as -> Hnil. rewrite bind_elem_nil; [by rewrite app_nil_r|].
    intros z Hz. apply Hf; [by apply list_elem_of_further|].
    intros HPz.
    assert (Hin : z ∈ filter P l) by (by apply list_elem_of_filter).
    rewrite Hnil in Hin. by apply elem_of_nil in Hin.
  - rewrite (Hf y); [|apply list_elem_of_here | done]. simpl.
    apply IH; [done|]. intros z Hz. apply Hf. by apply list_elem_of_further.
Qed.

Lemma filter_single_holds {A : Type} (P : A → Prop) `{∀ x, Decision (P x)}
    (l : list A) (x : A) :
  filter P l = [x] → P x ∧ ∀ y, y ∈ l → P y → y = x.
Proof.
  intros Hx. split.
  - assert (Hin : x ∈ filter P l) by (rewrite Hx; apply list_elem_of_here).
    by apply list_elem_of_filter in Hin as [? _].
  - intros y Hy HPy.
    assert (Hin : y ∈ filter P l) by (by apply list_elem_of_filter).
    rewrite Hx in Hin. by apply list_elem_of_singleton in Hin.
Qed.

(** The inner query of an article with one category. *)
Lemma select_category_names_only (db : database) (article_id : Z)
    (c : category_row) :
  only_category db article_id c →
  select_category_names db article_id = [c_name c].
Proof.
  intros (a & ac & _ & Hac & Hc). unfold select_category_names.
  destruct (filter_single_holds _ _ _ Hac) as [Hac1 Hac2].
  destruct (filter_single_holds _ _ _ Hc) as [Hc1 _].
  rewrite (bind_filter_single _ _ _ c Hc).
  - rewrite (bind_filter_single _ _ _ ac Hac).
    + by rewrite !bool_decide_eq_true_2.
    + intros ac' _ Hne.
      by rewrite (bool_decide_eq_false_2 _ Hne), andb_false_r.
  - intros c' _ Hne. apply bind_elem_nil. intros ac' Hin.
    destruct (decide (ac_article_id ac' = article_id)) as [Ha | Ha].
    + rewrite (Hac2 ac' Hin Ha). by rewrite (bool_decide_eq_false_2 _ Hne).
    + by rewrite (bool_decide_eq_false_2 _ Ha), andb_false_r.
Qed.

(** The outer query yields one row for an event of the user, in the window,
    for an article with one category. *)
Lemma select_engagement_of_event (db : database) (clk : clock)
    (user_id : string) (days : Z) (e : engagement_row) (c : category_row) :
  e_user_id e = user_id →
  in_window clk days (e_timestamp e) = true →
  only_category db (e_article_id e) c →
  select_engagement_by_category (with_engagement db [e]) clk user_id days
  = [ {| pr_article_id := e_article_id e;
         pr_event_type := e_event_type e;
         pr_duration := e_duration_seconds e;
         pr_scroll_depth := e_scroll_depth e;
         pr_timestamp := e_timestamp e |} ].
Proof.
  intros Hu Hw (a & ac & Ha & Hac & Hc).
  unfold select_engagement_by_category, with_engagement. simpl.
  rewrite app_nil_r.
  destruct (filter_single_holds _ _ _ Ha) as [Ha1 _].
  destruct (filter_single_holds _ _ _ Hac) as [Hac1 _].
  destruct (filter_single_holds _ _ _ Hc) as [Hc1 _].
  rewrite (bind_filter_single _ _ _ a Ha).
  - rewrite (bind_filter_single _ _ _ ac Hac).
    + rewrite (bind_filter_single _ _ _ c Hc).
      * rewrite Hw, Hac1.
        rewrite !bool_decide_eq_true_2 by congruence. done.
      * intros c' _ Hne.
        rewrite (bool_decide_eq_false_2 (ac_category_id ac = c_id c'))
          by congruence.
        by rewrite !andb_false_r.
    + intros ac' _ Hne. apply bind_elem_nil. intros c' _.
      rewrite (bool_decide_eq_false_2 (a_id a = ac_article_id ac'))
        by congruence.
      by rewrite !andb_false_r.
  - intros a' _ Hne. apply bind_elem_nil. intros ac' _.
    apply bind_elem_nil. intros c' _.
    rewrite (bool_decide_eq_false_2 (e_article_id e = a_id a'))
      by congruence.
    done.
Qed.

(** The scores after one more event: the rows of the new event are handled
    after those of the log. *)
Lemma accumulate_scores_with_event (db : database) (clk : clock)
    (user_id : string) (days : Z) (e : engagement_row) :
  accumulate_scores (with_event db e) clk user_id days
  = fold_left (accumulate_row db clk)
      (select_engagement_by_category (with_engagement db [e]) clk user_id
         days)
      (accumulate_scores db clk user_id days).
Proof.
  unfold accumulate_scores, with_event.
  change (accumulate_row (with_engagement db _) clk)
    with (accumulate_row db clk).
  assert (E : select_engagement_by_category
                (with_engagement db (engagement db ++ [e])) clk user_id days
              = (select_engagement_by_category db clk user_id days
                 ++ select_engagement_by_category (with_engagement db [e])
                      clk user_id days)%list).
  { unfold select_engagement_by_category, with_engagement. simpl.
    by rewrite bind_app. }
  by rewrite E, fold_left_app.
Qed.

Lemma event_score_unrecognised (clk : clock) (event_type : string)
    (duration : option Z) (timestamp : Z) :
  event_type ∉ event_kinds →
  event_score clk event_type duration timestamp
  = event_score clk "view" duration timestamp.
Proof.
  intros H. unfold event_score, event_weight.
  by rewrite (event_weight_unrecognised _ H).
Qed.

(** The score of a view that lasted is positive. *)
Lemma view_score_positive (clk : clock) (duration : option Z)
    (timestamp : Z) :
  0 < default 0 duration →
  (0 < event_score clk "view" duration timestamp)%Q.
Proof.
  intros Hd. unfold event_score.
  assert (Hw : (0 < event_weight "view")%Q) by done.
  assert (Ht : (0 < time_factor duration)%Q).
  { unfold time_factor, py_min.
    destruct (Qle_bool _ _); [|done].
    unfold Qlt, Qdiv, Qmult, Qinv. simpl. lia. }
  assert (Hr : (0 < recency_factor clk timestamp)%Q).
  { unfold recency_factor. by apply Qpower_0_lt. }
  apply Qmult_lt_0_compat; [|done]. by apply Qmult_lt_0_compat.
Qed.

Lemma normalize_scores_single (k : string) (s : Q) :
  ¬ (s == 0)%Q →
  ∃ v, normalize_scores {[ k := s ]} = Ok {[ k := v ]} ∧ (v == 1)%Q.
Proof.
  intros Hs. exists (s / s)%Q. split; [|by apply Qdiv_self].
  assert (E : max_score_of {[ k := s ]} = s).
  { unfold max_score_of, dict_max, dict_values.
    by rewrite map_to_list_singleton. }
  unfold normalize_scores. rewrite E, dict_div_all_Ok by done.
  by rewrite map_fmap_singleton.
Qed.

End EngagementFacts.

(** C9: an event whose kind is none of view, read, bookmark, skip and scroll
    gets the event weight 1.0 of a view and is scored, not dropped.
    Relabelling every such event as a view leaves the result of
    [get_user_category_preferences] unchanged.  One more such event of the
    user, inside the window and for an article with one category, raises
    the accumulated score of that category by the score of a view of the
    same duration and age, and the preferences are the normalisation of
    these scores.  When it is the user's only scored event, lasted at least
    a second and is at most ten years old, its category gets the weight
    1.0: the event counts as positive engagement. *)
Theorem unrecognised_kind_scored_as_view :
  (∀ event_type : string,
     event_type ∉ event_kinds →
     Engagement.event_weight event_type = 1%Q
     ∧ ∀ clk duration timestamp,
         Engagement.event_score clk event_type duration timestamp
         = Engagement.event_score clk "view" duration timestamp)
  ∧ (∀ db clk user_id days,
       Engagement.get_user_category_preferences
         (with_engagement db (as_view <$> engagement db)) clk user_id days
       = Engagement.get_user_category_preferences db clk user_id days)
  ∧ (∀ db clk user_id days e c,
       e_event_type e ∉ event_kinds →
       e_user_id e = user_id →
       Engagement.in_window clk days (e_timestamp e) = true →
       only_category db (e_article_id e) c →
       Engagement.accumulate_scores (with_event db e) clk user_id days
       = <[c_name c :=
             (default 0%Q
                (Engagement.accumulate_scores db clk user_id days
                 !! c_name c)
              + Engagement.event_score clk "view" (e_duration_seconds e)
                  (e_timestamp e))%Q]>
           (Engagement.accumulate_scores db clk user_id days)
       ∧ Engagement.get_user_category_preferences (with_event db e) clk
           user_id days
         = Engagement.normalize_scores
             (<[c_name c :=
                  (default 0%Q
                     (Engagement.accumulate_scores db clk user_id days
                      !! c_name c)
                   + Engagement.event_score clk "view"
                       (e_duration_seconds e) (e_timestamp e))%Q]>
                (Engagement.accumulate_scores db clk user_id days))
       ∧ (Engagement.accumulate_scores db clk user_id days = ∅ →
          0 < default 0 (e_duration_seconds e) →
          0 ≤ Engagement.days_ago clk (e_timestamp e) ≤ 3650 →
          ∃ v, Engagement.get_user_category_preferences (with_event db e)
                 clk user_id days = Ok {[ c_name c := v ]}
               ∧ (v == 1)%Q)).
Proof.
  split; [|split].
  - intros event_type H.
    assert (E : Engagement.event_weight event_type = 1%Q).
    { unfold Engagement.event_weight.
      by rewrite (event_weight_unrecognised _ H). }
    split; [done|]. intros clk duration timestamp.
    unfold Engagement.event_score. by rewrite E.
  - intros db clk user_id days.
    unfold Engagement.get_user_category_preferences,
      Engagement.accumulate_scores.
    f_equal.
    change (Engagement.accumulate_row (with_engagement db _) clk)
      with (Engagement.accumulate_row db clk).
    apply fold_accumulate_same_score, select_as_view.
  - intros db clk user_id days e c Hk Hu Hw Hc.
    assert (E : Engagement.accumulate_scores (with_event db e) clk user_id
                  days
                = <[c_name c :=
                      (default 0%Q
                         (Engagement.accumulate_scores db clk user_id days
                          !! c_name c)
                       + Engagement.event_score clk "view"
                           (e_duration_seconds e) (e_timestamp e))%Q]>
                    (Engagement.accumulate_scores db clk user_id days)).
    { rewrite accumulate_scores_with_event.
      rewrite (select_engagement_of_event _ _ _ _ _ c Hu Hw Hc). simpl.
      unfold Engagement.accumulate_row. simpl.
      rewrite (select_category_names_only _ _ _ Hc). simpl.
      by rewrite (event_score_unrecognised _ _ _ _ Hk). }
    split; [done|].
    unfold Engagement.get_user_category_preferences. rewrite E.
    split; [done|]. intros -> Hd _. rewrite lookup_empty. simpl.
    rewrite insert_empty. apply normalize_scores_single.
    pose proof (view_score_positive clk _ (e_timestamp e) Hd) as Hpos.
    intros H0. rewrite Qplus_0_l in H0. rewrite H0 in Hpos.
    by apply Qlt_irrefl in Hpos.
Qed.

(** A ten-minute [share] of the one [Science] article is the only event of
    [captain]: the kind is not recognised, weighs like a view, and
    [Science] gets the weight 1.0. *)
Lemma unrecognised_kind_scored_as_view_witness :
  ("share" ∉ event_kinds)
  ∧ Engagement.event_weight "share" = 1%Q
  ∧ Engagement.event_score Samples.now "share" (Some 600) Samples.a_minute_ago
    = Engagement.event_score Samples.now "view" (Some 600)
        Samples.a_minute_ago
  ∧ only_category Samples.db_single_article 1 Samples.science
  ∧ ∃ v, Engagement.get_user_category_preferences
           (with_event Samples.db_single_article
              (Samples.sample_event 1 1 "share" 600))
           Samples.now "captain" 30 = Ok {[ "Science" := v ]}
         ∧ (v == 1)%Q.
Proof.
  assert (H : "share" ∉ event_kinds) by compute_done.
  assert (Hc : only_category Samples.db_single_article 1 Samples.science).
  { eexists _, _. split; [reflexivity|]. split; reflexivity. }
  destruct unrecognised_kind_scored_as_view as (H1 & _ & H3).
  destruct (H1 "share" H) as [Hw Hs].
  split; [done|]. split; [done|]. split; [apply Hs|]. split; [done|].
  destruct (H3 Samples.db_single_article Samples.now "captain" 30
              (Samples.sample_event 1 1 "share" 600) Samples.science)
    as (_ & _ & Hpos); [done | done | by vm_compute | done |].
  apply Hpos; [by vm_compute | simpl; lia | by vm_compute].
Defined.

(** ** engagement.py: accumulation and normalisation *)

(** C3: a single skip event with duration 0 accumulates a score of exactly 0
    for its category; the maximum is then 0 and the normalisation divides
    by it: [get_user_category_preferences] raises [ZeroDivisionError]
    instead of returning an empty or neutral result. *)
Theorem zero_maximum_raises_division_error :
  has_weight
    (Engagement.accumulate_scores (Samples.db_one_skip 0) Samples.now
       "captain" 30) "Sports" 0
  ∧ Engagement.get_user_category_preferences (Samples.db_one_skip 0)
      Samples.now "captain" 30 = Raise ZeroDivisionError.
Proof.
  split.
  - eexists. split; [by vm_compute | reflexivity].
  - by vm_compute.
Qed.

(** C4: an article in two categories that was viewed once, with an event
    score of 1: the outer query returns the event once per category link
    and the inner loop adds the score to every category of the article for
    each of these rows, so each of the two categories accumulates 2, not 1.
    With a second article in [History] only, viewed once with the same
    score, [Science] gets the weight 2/3 (it would be 1/2 if every event
    counted once per category). *)
Theorem event_counted_once_per_link_and_category :
  (Engagement.event_score Samples.now "view" (Some 600%Z)
     Samples.a_minute_ago == 1)%Q
  ∧ length (Engagement.select_engagement_by_category
              Samples.db_two_categories Samples.now "captain" 30) = 2%nat
  ∧ has_weight
      (Engagement.accumulate_scores Samples.db_two_categories Samples.now
         "captain" 30) "Science" 2
  ∧ has_weight
      (Engagement.accumulate_scores Samples.db_two_categories Samples.now
         "captain" 30) "History" 2
  ∧ has_weight
      (Engagement.accumulate_scores Samples.db_shared_category Samples.now
         "captain" 30) "Science" 2
  ∧ has_weight
      (Engagement.accumulate_scores Samples.db_shared_category Samples.now
         "captain" 30) "History" 3
  ∧ ∃ d, Engagement.get_user_category_preferences
           Samples.db_shared_category Samples.now "captain" 30 = Ok d
         ∧ has_weight d "Science" (2 # 3)
         ∧ has_weight d "History" 1.
Proof.
  repeat split; try (by vm_compute);
    try (eexists; split; [by vm_compute | reflexivity]).
  eexists. split; [by vm_compute|].
  split; (eexists; split; [by vm_compute | reflexivity]).
Qed.

(** What the normalisation does to signs and bounds. *)
Lemma normalize_scores_inv (scores d : gmap string Q) :
  Engagement.normalize_scores scores = Ok d →
  d = (λ v, (v / Engagement.max_score_of scores)%Q) <$> scores
  ∧ (scores = ∅ ∨ ¬ (Engagement.max_score_of scores == 0)%Q).
Proof. apply dict_div_all_inv. Qed.

Lemma normalize_scores_top (scores d : gmap string Q) :
  Engagement.normalize_scores scores = Ok d → d ≠ ∅ →
  let top := Engagement.max_score_of scores in
  ¬ (top == 0)%Q
  ∧ (∃ k, scores !! k = Some top)
  ∧ (∀ k v, scores !! k = Some v → (v <= top)%Q).
Proof.
  intros Hd Hne top. apply normalize_scores_inv in Hd as [-> Hd].
  destruct Hd as [-> | Hd]; [by rewrite fmap_empty in Hne|].
  split; [done|]. subst top. unfold Engagement.max_score_of in *.
  destruct (dict_max scores) as [m|] eqn:E; simpl in *.
  - split; [by apply dict_max_attained|].
    intros k v. by apply dict_max_upper.
  - apply dict_max_None in E as ->. by rewrite fmap_empty in Hne.
Qed.

(** The normalisation raises exactly when there is a score and the largest
    one is zero. *)
Lemma normalize_scores_raises (scores : gmap string Q) (e : py_exception) :
  Engagement.normalize_scores scores = Raise e
  ↔ e = ZeroDivisionError ∧ scores ≠ ∅
    ∧ (Engagement.max_score_of scores == 0)%Q.
Proof.
  unfold Engagement.normalize_scores, dict_div_all.
  destruct (dict_values scores) eqn:E.
  - apply dict_values_nil in E. split; [done | tauto].
  - assert (Hne : scores ≠ ∅).
    { intros H. apply dict_values_nil in H. congruence. }
    destruct (Qeq_bool (Engagement.max_score_of scores) 0) eqn:Em.
    + apply Qeq_bool_iff in Em. split; [by intros [= <-] | by intros [-> _]].
    + split; [done|]. intros (_ & _ & H). apply Qeq_bool_iff in H. congruence.
Qed.

(** C5, as amended: whenever [get_user_category_preferences] returns a
    non-empty mapping, the category with the largest accumulated score has
    weight exactly 1.0; every weight is at most 1.0 when that largest score
    is positive (negative weights are not bounded below by -1.0), and every
    weight is at least 1.0, hence positive, when it is negative. *)
Theorem normalized_weights_relative_to_maximum
    (db : database) (clk : clock) (user_id : string) (days : Z)
    (d : gmap string Q) :
  Engagement.get_user_category_preferences db clk user_id days = Ok d →
  d ≠ ∅ →
  let top :=
    Engagement.max_score_of (Engagement.accumulate_scores db clk user_id days)
  in
  (∃ k, Engagement.accumulate_scores db clk user_id days !! k = Some top
        ∧ has_weight d k 1)
  ∧ ((0 < top)%Q → ∀ k v, d !! k = Some v → (v <= 1)%Q)
  ∧ ((top < 0)%Q → ∀ k v, d !! k = Some v → (1 <= v)%Q).
Proof.
  unfold Engagement.get_user_category_preferences.
  set (scores := Engagement.accumulate_scores db clk user_id days).
  intros Hd Hne. set (top := Engagement.max_score_of scores).
  destruct (normalize_scores_top _ _ Hd Hne) as (Hz & [k Hk] & Hle).
  apply normalize_scores_inv in Hd as [-> _]. fold top in Hz, Hk, Hle |- *.
  split; [|split].
  - exists k. split; [done|]. exists (top / top)%Q.
    rewrite lookup_fmap, Hk. split; [done | by apply Qdiv_self].
  - intros Hpos k' v. rewrite lookup_fmap.
    destruct (scores !! k') as [s|] eqn:E; [|done]. intros [= <-].
    apply Qdiv_le_1_pos; eauto.
  - intros Hneg k' v. rewrite lookup_fmap.
    destruct (scores !! k') as [s|] eqn:E; [|done]. intros [= <-].
    apply Qdiv_ge_1_neg; eauto.
Qed.

(** The bounds on the preferences of [Samples.db_view_and_skip]. *)
Lemma normalized_weights_relative_to_maximum_witness :
  Engagement.get_user_category_preferences Samples.db_view_and_skip
    Samples.now "captain" 30 = Ok SampleResults.view_and_skip_preferences
  ∧ SampleResults.view_and_skip_preferences ≠ ∅
  ∧ ∃ k, has_weight SampleResults.view_and_skip_preferences k 1.
Proof.
  assert (Hr : Engagement.get_user_category_preferences
                 Samples.db_view_and_skip Samples.now "captain" 30
               = Ok SampleResults.view_and_skip_preferences) by (by vm_compute).
  assert (Hne : SampleResults.view_and_skip_preferences ≠ ∅).
  { intros H. apply (f_equal (λ d : gmap string Q, d !! "Science")) in H.
    by vm_compute in H. }
  split; [done|]. split; [done|].
  destruct (normalized_weights_relative_to_maximum _ _ _ _ _ Hr Hne)
    as [(k & _ & Hk) _].
  by exists k.
Defined.

(** Against C5 as stated: with a ten-minute view in [Science] and a
    ten-minute skip in [Sports] the weight of [Sports] is -2.0, of absolute
    value above 1.0; and when the only event is a skip the weight of its
    category is 1.0, not -1.0. *)
Lemma normalized_weight_exceeds_unit_bound :
  (∃ d v, Engagement.get_user_category_preferences Samples.db_view_and_skip
            Samples.now "captain" 30 = Ok d
          ∧ d !! "Sports" = Some v
          ∧ (v == -2)%Q
          ∧ ¬ (Qabs v <= 1)%Q)
  ∧ (∃ d, Engagement.get_user_category_preferences (Samples.db_one_skip 600)
            Samples.now "captain" 30 = Ok d
          ∧ has_weight
              (Engagement.accumulate_scores (Samples.db_one_skip 600)
                 Samples.now "captain" 30) "Sports" (-2)
          ∧ has_weight d "Sports" 1
          ∧ ¬ has_weight d "Sports" (-1)).
Proof.
  split.
  - eexists _, _. split; [by vm_compute|]. split; [by vm_compute|].
    split; [reflexivity|]. by vm_compute.
  - eexists. split; [by vm_compute|].
    split; [eexists; split; [by vm_compute | reflexivity]|].
    split; [eexists; split; [by vm_compute | reflexivity]|].
    intros (v & Hv & Hq). vm_compute in Hv. injection Hv as <-.
    by vm_compute in Hq.
Qed.

(** ** engagement.py: recording events *)


Lemma record_event_inv (db : database) (clk : clock) (article_id : Z)
    (event_type user_id : string) (duration_seconds : Z) (scroll_depth : Q)
    (db' : database) (event_id : Z) :
  Engagement.record_event db clk article_id event_type user_id
    duration_seconds scroll_depth = Ok (db', event_id) →
  Engagement.fits_sqlite_integer article_id = true
  ∧ Engagement.fits_sqlite_integer duration_seconds = true
  ∧ event_id = Engagement.next_rowid (engagement db)
  ∧ db' = with_engagement db
            (engagement db
             ++ [ {| e_id := event_id;
                     e_article_id := article_id;
                     e_user_id := user_id;
                     e_event_type := event_type;
                     e_duration_seconds := Some duration_seconds;
                     e_scroll_depth := scroll_depth;
                     e_timestamp := sql_now clk |} ])%list.
Proof.
  unfold Engagement.record_event.
  destruct (Engagement.fits_sqlite_integer article_id); [|done].
  destruct (Engagement.fits_sqlite_integer duration_seconds); [|done].
  simpl. by intros [= <- <-].
Qed.




(** ** recommendations.py: category weights *)

Section WeightFacts.
Import Recommendations.

Lemma clamp_weights_floor (rows : list (string * Q)) (k : string) (v : Q) :
  clamp_weights rows !! k = Some v → (0.1 <= v)%Q.
Proof.
  unfold clamp_weights.
  assert (G : ∀ w : gmap string Q,
             (∀ k v, w !! k = Some v → (0.1 <= v)%Q) →
             ∀ k v,
               fold_left
                 (λ (w : gmap string Q) row,
                    <[row.1 := py_max 0.1%Q row.2]> w) rows w !! k = Some v →
               (0.1 <= v)%Q).
  { induction rows as [|row rows IH]; intros w Hw; simpl; [done|].
    apply IH. intros k' v'. rewrite lookup_insert.
    case_decide; [|by apply Hw]. intros [= <-]. apply py_max_ge_l. }
  apply G. intros k' v'. by rewrite lookup_empty.
Qed.

Lemma normalize_weights_unit_interval (w : gmap string Q) :
  (∀ k v, w !! k = Some v → (0.1 <= v)%Q) →
  ∃ w', normalize_weights w = Ok w'
        ∧ ∀ k v, w' !! k = Some v → (0 < v)%Q ∧ (v <= 1)%Q.
Proof.
  intros Hw. unfold normalize_weights.
  destruct (dict_max w) as [m|] eqn:E.
  - destruct (dict_max_attained _ _ E) as [km Hkm].
    assert (Hm : (0 < m)%Q).
    { eapply Qlt_le_trans; [|by apply (Hw km)]. done. }
    assert (Hm0 : ¬ (m == 0)%Q).
    { intros H. rewrite H in Hm. by apply Qlt_irrefl in Hm. }
    exists ((λ v, (v / m)%Q) <$> w). split; [by apply dict_div_all_Ok|].
    intros k v. rewrite lookup_fmap.
    destruct (w !! k) as [s|] eqn:Es; [|done]. intros [= <-]. split.
    + apply Qlt_shift_div_l; [done|]. rewrite Qmult_0_l.
      eapply Qlt_le_trans; [|by apply (Hw k)]. done.
    + apply Qdiv_le_1_pos; [done|]. by apply (dict_max_upper w m k).
  - apply dict_max_None in E as ->. exists ∅. split; [done|].
    intros k v. by rewrite lookup_empty.
Qed.

Lemma get_category_weights_unit_interval (db : database) (user_id : string) :
  ∃ w, _get_category_weights db user_id = Ok w
       ∧ ∀ k v, w !! k = Some v → (0 < v)%Q ∧ (v <= 1)%Q.
Proof.
  apply normalize_weights_unit_interval. apply clamp_weights_floor.
Qed.

End WeightFacts.




(** ** server.py: the classifier *)

Section ClassifierFacts.
Import Server.

Lemma keyword_score_no_match (text_lower : string) (keywords : list string) :
  Forall (λ kw, str_contains kw text_lower = false) keywords →
  keyword_score text_lower keywords = 0%nat.
Proof.
  unfold keyword_score. induction 1 as [|kw keywords Hkw _ IH]; [done|].
  rewrite filter_cons_False; [done | congruence].
Qed.

Lemma keyword_categories_no_match (text_lower : string) :
  Forall (λ ck : string * list string,
            Forall (λ kw, str_contains kw text_lower = false) ck.2)
    CATEGORY_KEYWORDS →
  keyword_categories text_lower = [].
Proof.
  unfold keyword_categories.
  induction 1 as [|ck cks Hck _ IH]; [done|].
  rewrite filter_cons_False; [done|].
  rewrite (keyword_score_no_match _ _ Hck). lia.
Qed.

Lemma person_keywords_no_match (text_lower : string) :
  Forall (λ kw, str_contains kw text_lower = false) person_keywords →
  existsb (λ kw, str_contains kw text_lower) person_keywords = false.
Proof.
  induction 1 as [|kw kws Hkw _ IH]; [done|]. simpl. by rewrite Hkw, IH.
Qed.

End ClassifierFacts.

(** C8: [extract_categories] is a function of the text alone;
    on the empty text it returns exactly [General]; on "The king died in
    the ancient battle" its result contains [History] and [People]; and
    whenever no keyword of any category and no person keyword occurs in the
    lower-cased text the result is exactly [General]. *)
Theorem extract_categories_general_fallback :
  Server.extract_categories "" = ["General"]
  ∧ ("History" ∈ Server.extract_categories
                   "The king died in the ancient battle"
     ∧ "People" ∈ Server.extract_categories
                    "The king died in the ancient battle")
  ∧ (∀ text : string,
       Forall (λ ck : string * list string,
                 Forall (λ kw, str_contains kw (str_lower text) = false) ck.2)
         Server.CATEGORY_KEYWORDS →
       Forall (λ kw, str_contains kw (str_lower text) = false)
         Server.person_keywords →
       Server.extract_categories text = ["General"]).
Proof.
  split; [by vm_compute|]. split.
  - split; apply list_elem_of_In; vm_compute; auto.
  - intros text Hc Hp. unfold Server.extract_categories.
    rewrite (keyword_categories_no_match _ Hc).
    by rewrite (person_keywords_no_match _ Hp).
Qed.

(** No keyword occurs in [Quartz]. *)
Lemma extract_categories_general_fallback_witness :
  Forall (λ ck : string * list string,
            Forall (λ kw, str_contains kw (str_lower "Quartz") = false) ck.2)
    Server.CATEGORY_KEYWORDS
  ∧ Forall (λ kw, str_contains kw (str_lower "Quartz") = false)
      Server.person_keywords
  ∧ Server.extract_categories "Quartz" = ["General"].
Proof.
  assert (Hc : Forall (λ ck : string * list string,
                         Forall (λ kw, str_contains kw (str_lower "Quartz")
                                       = false) ck.2)
                 Server.CATEGORY_KEYWORDS)
    by (repeat constructor).
  assert (Hp : Forall (λ kw, str_contains kw (str_lower "Quartz") = false)
                 Server.person_keywords)
    by (repeat constructor).
  split; [done|]. split; [done|].
  exact (proj2 (proj2 extract_categories_general_fallback) "Quartz" Hc Hp).
Defined.

(** ** Lists: slices, limits, sorting, shuffling *)

Lemma shuffle_by_Permutation {A : Type} (draws : list nat) (l : list A) :
  shuffle_by draws l ≡ₚ l.
Proof.
  revert l. induction draws as [|d draws IH]; intros l; simpl; [done|].
  destruct (l !! (d mod length l)%nat) as [x|] eqn:E; [|done].
  rewrite IH. symmetry. by apply delete_Permutation.
Qed.

Lemma insert_desc_Permutation {A : Type} (key : A → Q) (x : A) (l : list A) :
  insert_desc key x l ≡ₚ x :: l.
Proof.
  induction l as [|y l IH]; simpl; [done|].
  destruct (Qle_bool (key y) (key x)); [done|].
  rewrite IH. apply Permutation_swap.
Qed.

Lemma sort_desc_Permutation {A : Type} (key : A → Q) (l : list A) :
  sort_desc key l ≡ₚ l.
Proof.
  unfold sort_desc. induction l as [|x l IH]; simpl; [done|].
  by rewrite insert_desc_Permutation, IH.
Qed.

Lemma sql_limit_sublist {A : Type} (n : Z) (l : list A) :
  sql_limit n l `sublist_of` l.
Proof. unfold sql_limit. destruct (n <? 0); [done | apply sublist_take]. Qed.


Lemma py_slice_to_sublist {A : Type} (l : list A) (n : Z) :
  py_slice_to l n `sublist_of` l.
Proof. unfold py_slice_to. destruct (0 <=? n); apply sublist_take. Qed.

Lemma py_slice_to_length {A : Type} (l : list A) (n : Z) :
  0 ≤ n → Z.of_nat (length (py_slice_to l n)) ≤ n.
Proof.
  intros Hn. unfold py_slice_to.
  destruct (0 <=? n) eqn:E; [|lia]. rewrite length_take. lia.
Qed.



Lemma filter_sublist_impl {A : Type} (P R : A → Prop)
    `{∀ x, Decision (P x)} `{∀ x, Decision (R x)} (l : list A) :
  (∀ x, P x → R x) → filter P l `sublist_of` filter R l.
Proof.
  intros HPR. induction l as [|x l IH]; [done|].
  rewrite !filter_cons. destruct (decide (P x)) as [HP|HP].
  - rewrite decide_True by auto. by apply sublist_skip.
  - destruct (decide (R x)); [by apply sublist_cons | done].
Qed.

Lemma submseteq_NoDup {A : Type} (l k : list A) :
  NoDup k → l ⊆+ k → NoDup l.
Proof.
  intros Hk Hl. apply submseteq_Permutation in Hl as [k' Hk'].
  rewrite Hk' in Hk. by apply NoDup_app in Hk as [? _].
Qed.

(** ** Results of [py_mapM] *)

Lemma py_mapM_Ok {A B : Type} (f : A → py_result B) (l : list A)
    (l' : list B) :
  py_mapM f l = Ok l' → Forall2 (λ x y, f x = Ok y) l l'.
Proof.
  revert l'. induction l as [|x l IH]; intros l'; simpl.
  - intros [= <-]. constructor.
  - destruct (f x) as [y|e] eqn:Ex; simpl; [|done].
    destruct (py_mapM f l) as [ys|e] eqn:El; simpl; [|done].
    intros [= <-]. constructor; [done | by apply IH].
Qed.

Lemma py_mapM_Raise {A B : Type} (f : A → py_result B) (l : list A)
    (e : py_exception) :
  py_mapM f l = Raise e → ∃ x, x ∈ l ∧ f x = Raise e.
Proof.
  induction l as [|x l IH]; simpl; [done|].
  destruct (f x) as [y|e'] eqn:Ex; simpl.
  - destruct (py_mapM f l) as [ys|e'] eqn:El; simpl; [done|].
    intros [= ->]. destruct IH as (x' & Hx' & Hf); [done|].
    exists x'. split; [by apply list_elem_of_further | done].
  - intros [= ->]. exists x. split; [apply list_elem_of_here | done].
Qed.

Lemma py_mapM_fmap {A B C : Type} (f : A → py_result B) (g : A → C)
    (h : B → C) (l : list A) (l' : list B) :
  (∀ x y, f x = Ok y → h y = g x) →
  py_mapM f l = Ok l' → h <$> l' = g <$> l.
Proof.
  intros Hfg Hl. apply py_mapM_Ok in Hl.
  induction Hl as [|x y l l' Hxy _ IH]; [done|].
  rewrite !fmap_cons. f_equal; [by apply Hfg | done].
Qed.

Lemma py_mapM_length {A B : Type} (f : A → py_result B) (l : list A)
    (l' : list B) :
  py_mapM f l = Ok l' → length l' = length l.
Proof. intros Hl. apply py_mapM_Ok in Hl. symmetry. by eapply Forall2_length. Qed.

(** ** recommendations.py: the two pools *)

Section FeedFacts.
Import Recommendations.

Variable json_loads : string → py_result (list string).

Lemma article_of_row_id (with_access_count : bool) (row : article_row)
    (a : article) :
  article_of_row json_loads with_access_count row = Ok a →
  art_id a = a_id row ∧ art_recommendation_type a = None.
Proof.
  unfold article_of_row.
  destruct (load_categories json_loads (a_categories row)); simpl; [|done].
  by intros [= <-].
Qed.

Lemma article_of_row_Raise (with_access_count : bool) (row : article_row)
    (e : py_exception) :
  article_of_row json_loads with_access_count row = Raise e →
  load_categories json_loads (a_categories row) = Raise e.
Proof.
  unfold article_of_row.
  destruct (load_categories json_loads (a_categories row)); simpl; [done|].
  by intros [= <-].
Qed.

Lemma score_row_id (w : gmap string Q) (row : article_row)
    (p : article * Q) :
  score_row json_loads w row = Ok p → art_id p.1 = a_id row.
Proof.
  unfold score_row.
  destruct (article_of_row json_loads true row) as [a|e] eqn:E; simpl;
    [|done].
  intros [= <-]. simpl. by apply article_of_row_id in E as [? _].
Qed.

Lemma score_row_Raise (w : gmap string Q) (row : article_row)
    (e : py_exception) :
  score_row json_loads w row = Raise e →
  load_categories json_loads (a_categories row) = Raise e.
Proof.
  unfold score_row.
  destruct (article_of_row json_loads true row) as [a|e'] eqn:E; simpl;
    [done|].
  intros [= <-]. by apply article_of_row_Raise in E.
Qed.

Lemma select_candidates_sub (db : database) (w : gmap string Q)
    (ex : gset Z) :
  select_candidates db w ex
  ⊆+ filter (λ a, a_id a ∉ ex) (articles db).
Proof.
  unfold select_candidates.
  etrans; [apply sublist_submseteq, sql_limit_sublist|].
  rewrite sort_desc_Permutation.
  apply sublist_submseteq, filter_sublist_impl. tauto.
Qed.

Lemma score_articles_ids (db : database) (w : gmap string Q) (ex : gset Z)
    (scored : list (article * Q)) :
  _score_articles json_loads db w ex = Ok scored →
  (λ p, art_id p.1) <$> scored ≡ₚ a_id <$> select_candidates db w ex.
Proof.
  unfold _score_articles.
  destruct (py_mapM (score_row json_loads w) (select_candidates db w ex))
    as [l|e] eqn:E; simpl; [|done].
  intros [= <-]. rewrite sort_desc_Permutation.
  by rewrite (py_mapM_fmap _ a_id (λ p, art_id p.1) _ _
                (score_row_id w) E).
Qed.

Lemma random_articles_ids (db : database) (draws : list nat) (ex : gset Z)
    (n : Z) (arts : list article) :
  _get_random_articles json_loads db draws ex n = Ok arts →
  art_id <$> arts
  = a_id <$> sql_limit n
               (shuffle_by draws (filter (λ a, a_id a ∉ ex) (articles db)))
  ∧ Forall (λ a, art_recommendation_type a = None) arts.
Proof.
  unfold _get_random_articles. intros H. split.
  - apply (py_mapM_fmap _ a_id art_id _ _) in H; [done|].
    intros row a Ha. by apply article_of_row_id in Ha as [? _].
  - apply py_mapM_Ok in H.
    induction H as [|row a rows arts' Ha _ IH]; constructor; [|done].
    by apply article_of_row_id in Ha as [_ ?].
Qed.

Lemma random_pool_sub (db : database) (draws : list nat) (ex : gset Z)
    (n : Z) :
  sql_limit n (shuffle_by draws (filter (λ a, a_id a ∉ ex) (articles db)))
  ⊆+ filter (λ a, a_id a ∉ ex) (articles db).
Proof.
  etrans; [apply sublist_submseteq, sql_limit_sublist|].
  by rewrite shuffle_by_Permutation.
Qed.

Lemma recommended_pool_keys (scored : list (article * Q)) (rc : Z) :
  entry_key <$> recommended_pool scored rc
  ⊆+ (λ i, (i, Some "recommended")) <$> ((λ p, art_id p.1) <$> scored).
Proof.
  unfold recommended_pool.
  destruct (negb (bool_decide (scored = [])) && (0 <? rc));
    [|apply submseteq_nil_l].
  rewrite <- !list_fmap_compose.
  apply (fmap_submseteq (λ p : article * Q, (art_id p.1, Some "recommended"))).
  apply sublist_submseteq, py_slice_to_sublist.
Qed.

Lemma discovery_pool_keys (db : database) (draws : list nat) (ex : gset Z)
    (n : Z) (disc : list article) :
  discovery_pool json_loads db draws ex n = Ok disc →
  entry_key <$> disc
  ⊆+ (λ i, (i, Some "discovery"))
       <$> (a_id <$> filter (λ a, a_id a ∉ ex) (articles db)).
Proof.
  unfold discovery_pool. destruct (0 <? n).
  - destruct (_get_random_articles json_loads db draws ex n) as [arts|e]
      eqn:E; simpl; [|done].
    intros [= <-]. apply random_articles_ids in E as [E _].
    rewrite <- list_fmap_compose.
    change (entry_key ∘ set_recommendation 0.3%Q "discovery")
      with (λ a : article, (λ i, (i, Some "discovery")) (art_id a)).
    rewrite (list_fmap_compose art_id (λ i, (i, Some "discovery"))), E.
    apply fmap_submseteq, fmap_submseteq, random_pool_sub.
  - intros [= <-]. apply submseteq_nil_l.
Qed.

(** The steps of a feed build that returns. *)
Lemma get_recommendations_inv (db : database) (sql_draws py_draws : list nat)
    (user_id : string) (count : Z) (feed_mix : Q) (excluded : list Z)
    (feed : list article) :
  get_recommendations json_loads db sql_draws py_draws user_id count feed_mix
    excluded = Ok feed →
  ∃ w scored disc,
    _get_category_weights db user_id = Ok w
    ∧ _score_articles json_loads db w (exclude_set_of db user_id excluded)
      = Ok scored
    ∧ discovery_pool json_loads db sql_draws
        (exclude_set_of db user_id excluded) (random_count_of count feed_mix)
      = Ok disc
    ∧ feed = py_slice_to
               (shuffle_by py_draws
                  (recommended_pool scored
                     (recommend_count_of count feed_mix) ++ disc))
               count.
Proof.
  unfold get_recommendations. fold (exclude_set_of db user_id excluded).
  destruct (_get_category_weights db user_id) as [w|] eqn:Ew; simpl; [|done].
  destruct (_score_articles json_loads db w _) as [scored|] eqn:Es; simpl;
    [|done].
  destruct (discovery_pool json_loads db sql_draws _ _) as [disc|] eqn:Ed;
    simpl; [|done].
  intros [= <-]. by exists w, scored, disc.
Qed.

(** Every entry of a returned feed, with its type, comes from one of the
    two pools. *)
Lemma feed_keys_sub (db : database) (sql_draws py_draws : list nat)
    (user_id : string) (count : Z) (feed_mix : Q) (excluded : list Z)
    (feed : list article) :
  get_recommendations json_loads db sql_draws py_draws user_id count feed_mix
    excluded = Ok feed →
  entry_key <$> feed
  ⊆+ (((λ i, (i, Some "recommended"))
         <$> (a_id <$> filter
                         (λ a, a_id a ∉ exclude_set_of db user_id excluded)
                         (articles db)))
      ++ ((λ i, (i, Some "discovery"))
            <$> (a_id <$> filter
                            (λ a, a_id a ∉ exclude_set_of db user_id excluded)
                            (articles db))))%list.
Proof.
  intros H. apply get_recommendations_inv in H
    as (w & scored & disc & _ & Hs & Hd & ->).
  etrans; [apply fmap_submseteq, sublist_submseteq, py_slice_to_sublist|].
  rewrite shuffle_by_Permutation, fmap_app.
  apply submseteq_app.
  - etrans; [apply recommended_pool_keys|].
    rewrite (score_articles_ids _ _ _ _ Hs).
    apply fmap_submseteq, fmap_submseteq, select_candidates_sub.
  - by apply discovery_pool_keys in Hd.
Qed.

End FeedFacts.

(** ** recommendations.py: the feed *)

(** C10: for every call that asks for a number [count] of entries (zero
    or more), whatever [feed_mix] (inside or outside [0,1], where the sizes
    of the two pools need not sum to [count]) and whatever the exclusion
    list, a returned feed has at most [count] entries: the final slice cuts
    the pools down to [count]. *)
Theorem feed_length_at_most_count
    (json_loads : string → py_result (list string)) (db : database)
    (sql_draws py_draws : list nat) (user_id : string) (count : Z)
    (feed_mix : Q) (excluded_articles : list Z)
    (feed : list Recommendations.article) :
  0 ≤ count →
  Recommendations.get_recommendations json_loads db sql_draws py_draws
    user_id count feed_mix excluded_articles = Ok feed →
  Z.of_nat (length feed) ≤ count.
Proof.
  intros Hcount E.
  apply get_recommendations_inv in E as (w & scored & disc & _ & _ & _ & ->).
  by apply py_slice_to_length.
Qed.

(** With [count = 2] and [feed_mix = -1.0] the ranked pool is asked for four
    entries and holds the three articles of the table; the feed has two. *)
Lemma feed_length_at_most_count_witness :
  0 ≤ 2
  ∧ Recommendations.recommend_count_of 2 (-1) = 4
  ∧ Recommendations.get_recommendations json_loads_names
      Samples.db_three_articles [1; 0]%nat [2; 0]%nat "captain" 2 (-1)%Q []
    = Ok MoreSampleResults.truncated_feed
  ∧ length MoreSampleResults.truncated_feed = 2%nat
  ∧ Z.of_nat (length MoreSampleResults.truncated_feed) ≤ 2.
Proof.
  assert (H : 0 ≤ 2) by lia.
  assert (E : Recommendations.get_recommendations json_loads_names
                Samples.db_three_articles [1; 0]%nat [2; 0]%nat "captain" 2
                (-1)%Q [] = Ok MoreSampleResults.truncated_feed)
    by (by vm_compute).
  split; [done|]. split; [by vm_compute|]. split; [done|].
  split; [by vm_compute|].
  exact (feed_length_at_most_count _ _ _ _ _ _ _ _ _ H E).
Defined.

(** A negative [count] is no number of entries: the final slice [[:count]]
    then drops entries from the end.  With [count = -1] and
    [feed_mix = 3.0] the recommended pool has [int(-1 * (1 - 3.0)) = 2]
    entries, no discovery article is drawn, and the slice [[:-1]] keeps
    one entry. *)
Lemma negative_count_slice_drops_from_end :
  Recommendations.recommend_count_of (-1) 3 = 2
  ∧ ∃ feed,
      Recommendations.get_recommendations json_loads_names
        Samples.db_three_articles [] [] "captain" (-1) 3 [] = Ok feed
      ∧ length feed = 1%nat.
Proof.
  split; [by vm_compute|].
  eexists. split; [by vm_compute | reflexivity].
Qed.

(** C2, as amended: every entry of a returned feed is labelled
    [recommended] or [discovery], is an article of the table and is not in
    the exclusion set (the caller's exclusions and the articles the user
    viewed or read).  The discovery articles are drawn from all non-excluded
    articles; the recommended entries are not removed from that pool.  When
    article ids are unique, no article appears twice with the same label,
    so an article appears at most once as recommended and once as
    discovery. *)
Theorem feed_entries_distinct_within_each_pool
    (json_loads : string → py_result (list string)) (db : database)
    (sql_draws py_draws : list nat) (user_id : string) (count : Z)
    (feed_mix : Q) (excluded_articles : list Z)
    (feed : list Recommendations.article) :
  Recommendations.get_recommendations json_loads db sql_draws py_draws
    user_id count feed_mix excluded_articles = Ok feed →
  (∀ a, a ∈ feed →
     (is_recommended a ∨ is_discovery a)
     ∧ (Recommendations.art_id a
        ∉ exclude_set_of db user_id excluded_articles)
     ∧ ∃ row, row ∈ articles db ∧ a_id row = Recommendations.art_id a)
  ∧ (NoDup (a_id <$> articles db) → NoDup (entry_key <$> feed)).
Proof.
  intros H. apply feed_keys_sub in H.
  set (ex := exclude_set_of db user_id excluded_articles) in *.
  set (pool := filter (λ a, a_id a ∉ ex) (articles db)) in *.
  split.
  - intros a Ha.
    apply (list_elem_of_fmap_2 entry_key) in Ha.
    eapply elem_of_submseteq in Ha; [|exact H].
    apply elem_of_app in Ha as [Ha | Ha];
      apply list_elem_of_fmap in Ha as (i & Hk & Hi);
      apply list_elem_of_fmap in Hi as (row & -> & Hrow);
      apply list_elem_of_filter in Hrow as [Hex Hrow];
      injection Hk as Hid Hty.
    + split; [by left|]. rewrite Hid. split; [done | by exists row].
    + split; [by right|]. rewrite Hid. split; [done | by exists row].
  - intros Hids. eapply submseteq_NoDup; [|exact H].
    assert (Hpool : NoDup (a_id <$> pool)).
    { eapply submseteq_NoDup; [exact Hids|].
      apply fmap_submseteq, sublist_submseteq, sublist_filter. }
    apply NoDup_app. split; [|split].
    + apply NoDup_fmap_2_strong; [|done]. by intros x y _ _ [= ->].
    + intros k Hk Hk'.
      apply list_elem_of_fmap in Hk as (i & -> & _).
      by apply list_elem_of_fmap in Hk' as (j & [= _] & _).
    + apply NoDup_fmap_2_strong; [|done]. by intros x y _ _ [= ->].
Qed.

(** The entries of [SampleResults.three_articles_feed] are distinct. *)
Lemma feed_entries_distinct_within_each_pool_witness :
  Recommendations.get_recommendations json_loads_names
    Samples.db_three_articles [1; 0]%nat [2; 0]%nat "captain" 2 0.5%Q [3]
  = Ok SampleResults.three_articles_feed
  ∧ NoDup (a_id <$> articles Samples.db_three_articles)
  ∧ NoDup (entry_key <$> SampleResults.three_articles_feed).
Proof.
  assert (H : Recommendations.get_recommendations json_loads_names
                Samples.db_three_articles [1; 0]%nat [2; 0]%nat "captain" 2
                0.5%Q [3]
              = Ok SampleResults.three_articles_feed) by (by vm_compute).
  assert (Hids : NoDup (a_id <$> articles Samples.db_three_articles)).
  { apply NoDup_ListNoDup. vm_compute. repeat constructor; simpl; lia. }
  split; [done|]. split; [done|].
  exact (proj2 (feed_entries_distinct_within_each_pool _ _ _ _ _ _ _ _ _ H)
           Hids).
Defined.

(** Against C2 as stated: one article, no engagement, [count = 2] and
    [feed_mix = 0.5].  The ranked step takes the article as the recommended
    entry and the random step draws the same article again: the returned
    feed holds article 1 twice. *)
Lemma feed_repeats_recommended_article :
  ∃ feed,
    Recommendations.get_recommendations json_loads_names
      Samples.db_single_article [] [] "captain" 2 0.5%Q [] = Ok feed
    ∧ Recommendations.art_id <$> feed = [1; 1]
    ∧ Recommendations.art_recommendation_type <$> feed
      = [Some "recommended"; Some "discovery"]
    ∧ ¬ NoDup (Recommendations.art_id <$> feed).
Proof.
  eexists. split; [by vm_compute|]. split; [reflexivity|].
  split; [reflexivity|].
  intros H. apply NoDup_cons in H as [H _]. apply H, list_elem_of_here.
Qed.

(** ** recommendations.py: the sizes of the two pools *)



Section FeedCounts.
Import Recommendations.

Variable json_loads : string → py_result (list string).








End FeedCounts.


(** The two doubles are the quotient [3 / 10] and the sum [0.1 + 0.2]. *)
Lemma binary64_literals :
  Binary64.quotient 3 10 = Ok Binary64.lit_0_3
  ∧ (∃ a b, Binary64.quotient 1 10 = Ok a ∧ Binary64.quotient 2 10 = Ok b
            ∧ SFadd Binary64.prec Binary64.emax a b
              = Binary64.lit_0_30000000000000004).
Proof. split; [by vm_compute|]. eexists _, _. by vm_compute. Qed.




(** * Further properties *)

Local Open Scope list_scope.

(** ** engagement.py: summary of an article *)

Section SummaryFacts.
Import EngagementTracker.

Lemma count_kind_disjoint (k1 k2 : string) (events : list engagement_row) :
  k1 ≠ k2 →
  0 ≤ count_kind k1 events ∧ 0 ≤ count_kind k2 events
  ∧ count_kind k1 events + count_kind k2 events ≤ Z.of_nat (length events).
Proof.
  intros Hne. unfold count_kind.
  induction events as [|e events IH]; simpl; [lia|].
  rewrite !filter_cons.
  destruct (decide (e_event_type e = k1)) as [H1|H1];
    destruct (decide (e_event_type e = k2)) as [H2|H2]; simpl; try lia.
  congruence.
Qed.

Lemma events_of_snoc (db : database) (row : engagement_row) (article_id : Z)
    (user_id : string) :
  events_of (with_engagement db (engagement db ++ [row])) article_id user_id
  = events_of db article_id user_id
    ++ (if bool_decide (e_article_id row = article_id
                        ∧ e_user_id row = user_id)
        then [row] else []).
Proof.
  unfold events_of, with_engagement. simpl. rewrite filter_app. f_equal.
  rewrite filter_cons, filter_nil.
  case_bool_decide as H; by destruct (decide _).
Qed.

Lemma count_kind_snoc (kind : string) (events : list engagement_row)
    (row : engagement_row) :
  count_kind kind (events ++ [row])
  = count_kind kind events
    + (if bool_decide (e_event_type row = kind) then 1 else 0).
Proof.
  unfold count_kind. rewrite filter_app, length_app, filter_cons, filter_nil.
  case_bool_decide as H; destruct (decide _); simpl; try done; lia.
Qed.

End SummaryFacts.

(** X1: for a pair of article and user without any event,
    [get_article_engagement] returns zero counts and zero averages. *)
Theorem article_engagement_without_events
    (db : database) (article_id : Z) (user_id : string) :
  (∀ e, e ∈ engagement db →
        ¬ (e_article_id e = article_id ∧ e_user_id e = user_id)) →
  EngagementTracker.get_article_engagement db article_id user_id
  = {| EngagementTracker.total_views := 0;
       EngagementTracker.avg_duration := 0%Q;
       EngagementTracker.avg_scroll := 0%Q;
       EngagementTracker.bookmarks := 0;
       EngagementTracker.skips := 0 |}.
Proof.
  intros H. unfold EngagementTracker.get_article_engagement.
  assert (E : EngagementTracker.events_of db article_id user_id = []).
  { unfold EngagementTracker.events_of. apply elem_of_nil_inv.
    intros e He. apply list_elem_of_filter in He as [He1 He2].
    by apply (H e). }
  by rewrite E.
Qed.

(** Article 7 was never touched by [captain] in [Samples.db_view_and_skip]. *)
Lemma article_engagement_without_events_witness :
  (∀ e, e ∈ engagement Samples.db_view_and_skip →
        ¬ (e_article_id e = 7 ∧ e_user_id e = "captain"))
  ∧ EngagementTracker.total_views
      (EngagementTracker.get_article_engagement Samples.db_view_and_skip 7
         "captain") = 0.
Proof.
  assert (H : ∀ e, e ∈ engagement Samples.db_view_and_skip →
                   ¬ (e_article_id e = 7 ∧ e_user_id e = "captain")).
  { intros e He [Ha _]. revert Ha.
    repeat (apply elem_of_cons in He as [-> | He]; [by vm_compute|]).
    by apply elem_of_nil in He. }
  split; [done|].
  by rewrite (article_engagement_without_events _ _ _ H).
Defined.

(** X2: in every summary the bookmark and skip counts are non-negative and
    together never exceed the total number of events of the pair. *)
Theorem article_engagement_counts_consistent
    (db : database) (article_id : Z) (user_id : string) :
  let s := EngagementTracker.get_article_engagement db article_id user_id in
  0 ≤ EngagementTracker.bookmarks s
  ∧ 0 ≤ EngagementTracker.skips s
  ∧ EngagementTracker.bookmarks s + EngagementTracker.skips s
    ≤ EngagementTracker.total_views s.
Proof. simpl. by apply count_kind_disjoint. Qed.

(** X3: when [record_event] for an article and a user returns, the summary
    of that pair counts one more event, one more bookmark (skip) exactly
    when the kind is [bookmark] ([skip]); the summary of every other pair
    of article and user is unchanged. *)
Theorem record_event_updates_one_summary
    (db : database) (clk : clock) (article_id : Z) (event_type : string)
    (user_id : string) (duration_seconds : Z) (scroll_depth : Q)
    (db' : database) (event_id : Z) :
  Engagement.record_event db clk article_id event_type user_id
    duration_seconds scroll_depth = Ok (db', event_id) →
  EngagementTracker.total_views
    (EngagementTracker.get_article_engagement db' article_id user_id)
  = EngagementTracker.total_views
      (EngagementTracker.get_article_engagement db article_id user_id) + 1
  ∧ EngagementTracker.bookmarks
      (EngagementTracker.get_article_engagement db' article_id user_id)
    = EngagementTracker.bookmarks
        (EngagementTracker.get_article_engagement db article_id user_id)
      + (if bool_decide (event_type = "bookmark") then 1 else 0)
  ∧ EngagementTracker.skips
      (EngagementTracker.get_article_engagement db' article_id user_id)
    = EngagementTracker.skips
        (EngagementTracker.get_article_engagement db article_id user_id)
      + (if bool_decide (event_type = "skip") then 1 else 0)
  ∧ ∀ article_id' user_id',
      ¬ (article_id' = article_id ∧ user_id' = user_id) →
      EngagementTracker.get_article_engagement db' article_id' user_id'
      = EngagementTracker.get_article_engagement db article_id' user_id'.
Proof.
  intros Hrec. apply record_event_inv in Hrec as (_ & _ & _ & ->).
  set (row := Build_engagement_row _ _ _ _ _ _ _).
  unfold EngagementTracker.get_article_engagement.
  split; [|split; [|split]].
  - cbn [EngagementTracker.total_views]. rewrite events_of_snoc.
    rewrite bool_decide_eq_true_2 by done. rewrite length_app. simpl. lia.
  - cbn [EngagementTracker.bookmarks]. rewrite events_of_snoc.
    rewrite bool_decide_eq_true_2 by done. apply count_kind_snoc.
  - cbn [EngagementTracker.skips]. rewrite events_of_snoc.
    rewrite bool_decide_eq_true_2 by done. apply count_kind_snoc.
  - intros article_id' user_id' Hne. rewrite events_of_snoc.
    rewrite bool_decide_eq_false_2; [by rewrite app_nil_r|].
    subst row. simpl. intros [<- <-]. by apply Hne.
Qed.

(** ** engagement.py: which events count *)

Section WindowFacts.
Import Engagement.

Lemma bind_filter_irrelevant {A B : Type} (P : A → Prop)
    `{∀ x, Decision (P x)} (f : A → list B) (l : list A) :
  (∀ x, ¬ P x → f x = []) → filter P l ≫= f = l ≫= f.
Proof.
  intros Hf. induction l as [|x l IH]; [done|].
  rewrite filter_cons. destruct (decide (P x)) as [HP|HP].
  - by rewrite !bind_cons, IH.
  - by rewrite bind_cons, (Hf x HP), IH.
Qed.

Lemma bind_nil_all {A B : Type} (f : A → list B) (l : list A) :
  (∀ x, f x = []) → l ≫= f = [].
Proof.
  intros Hf. induction l as [|x l IH]; [done|].
  by rewrite bind_cons, Hf, IH.
Qed.

(** Only the events of the user that lie in the window are selected. *)
Lemma select_only_user_events_in_window (db : database) (clk : clock)
    (user_id : string) (days : Z) :
  select_engagement_by_category
    (with_engagement db
       (filter (λ e, e_user_id e = user_id
                     ∧ in_window clk days (e_timestamp e) = true)
          (engagement db))) clk user_id days
  = select_engagement_by_category db clk user_id days.
Proof.
  unfold select_engagement_by_category, with_engagement. simpl.
  apply bind_filter_irrelevant. intros e He.
  apply bind_nil_all. intros a. apply bind_nil_all. intros ac.
  apply bind_nil_all. intros c.
  destruct (bool_decide (e_user_id e = user_id)) eqn:Eu;
    [|by rewrite andb_false_r].
  destruct (in_window clk days (e_timestamp e)) eqn:Ew;
    [|by rewrite andb_false_r].
  exfalso. apply He. split; [by apply bool_decide_eq_true in Eu | done].
Qed.

End WindowFacts.

(** X4: [get_user_category_preferences] depends only on the events of the
    given user whose timestamp lies in the trailing window: dropping every
    other event from the log (other users, older events) leaves the result
    unchanged. *)
Theorem preferences_use_only_user_events_in_window
    (db : database) (clk : clock) (user_id : string) (days : Z) :
  Engagement.get_user_category_preferences
    (with_engagement db
       (filter (λ e, e_user_id e = user_id
                     ∧ Engagement.in_window clk days (e_timestamp e) = true)
          (engagement db))) clk user_id days
  = Engagement.get_user_category_preferences db clk user_id days.
Proof.
  unfold Engagement.get_user_category_preferences,
    Engagement.accumulate_scores.
  rewrite select_only_user_events_in_window.
  by change (Engagement.accumulate_row (with_engagement db _) clk)
       with (Engagement.accumulate_row db clk).
Qed.

(** X5: when the user has no event in the window,
    [get_user_category_preferences] returns the empty mapping (and does
    not raise). *)
Theorem preferences_empty_without_events
    (db : database) (clk : clock) (user_id : string) (days : Z) :
  (∀ e, e ∈ engagement db → e_user_id e = user_id →
        Engagement.in_window clk days (e_timestamp e) = false) →
  Engagement.get_user_category_preferences db clk user_id days = Ok ∅.
Proof.
  intros H.
  unfold Engagement.get_user_category_preferences,
    Engagement.accumulate_scores.
  rewrite <- select_only_user_events_in_window.
  assert (E : filter (λ e, e_user_id e = user_id
                           ∧ Engagement.in_window clk days (e_timestamp e)
                             = true) (engagement db) = []).
  { apply elem_of_nil_inv. intros e He.
    apply list_elem_of_filter in He as [[Hu Hw] He].
    rewrite (H e He Hu) in Hw. done. }
  by rewrite E.
Qed.

(** The user [guest] has no event at all in [Samples.db_view_and_skip]. *)
Lemma preferences_empty_without_events_witness :
  (∀ e, e ∈ engagement Samples.db_view_and_skip → e_user_id e = "guest" →
        Engagement.in_window Samples.now 30 (e_timestamp e) = false)
  ∧ Engagement.get_user_category_preferences Samples.db_view_and_skip
      Samples.now "guest" 30 = Ok ∅.
Proof.
  assert (H : ∀ e, e ∈ engagement Samples.db_view_and_skip →
                   e_user_id e = "guest" →
                   Engagement.in_window Samples.now 30 (e_timestamp e)
                   = false).
  { intros e He Hu. exfalso. revert Hu.
    repeat (apply elem_of_cons in He as [-> | He]; [by vm_compute|]).
    by apply elem_of_nil in He. }
  split; [done|].
  exact (preferences_empty_without_events _ _ _ _ H).
Defined.

(** ** engagement.py: the factors of an event score *)

Section ScoreFacts.
Import Engagement.

Lemma power_of_nine_tenths_decreasing (n m : Z) :
  n < m → (0.9 ^ m < 0.9 ^ n)%Q.
Proof.
  intros Hnm.
  assert (E : (0.9 == / (10 # 9))%Q) by reflexivity.
  rewrite E, !Qinv_power.
  assert (H1 : (1 < 10 # 9)%Q) by reflexivity.
  assert (H0 : (0 < 10 # 9)%Q) by reflexivity.
  apply -> Qinv_lt_contravar; try by apply Qpower_0_lt.
  by apply Qpower_lt_compat_l.
Qed.

Lemma recency_factor_positive (clk : clock) (timestamp : Z) :
  (0 < recency_factor clk timestamp)%Q.
Proof. unfold recency_factor. by apply Qpower_0_lt. Qed.

Lemma recency_factor_at_most_one (clk : clock) (timestamp : Z) :
  timestamp ≤ py_now clk → (recency_factor clk timestamp <= 1)%Q.
Proof.
  intros H. unfold recency_factor.
  assert (Hd : 0 ≤ days_ago clk timestamp).
  { unfold days_ago, seconds_per_day. apply Z.div_pos; lia. }
  destruct (decide (days_ago clk timestamp = 0)) as [-> | Hne]; [done|].
  apply Qlt_le_weak.
  change 1%Q with (0.9 ^ 0)%Q.
  apply power_of_nine_tenths_decreasing. lia.
Qed.

Lemma time_factor_range (duration : option Z) :
  (time_factor duration <= 1)%Q
  ∧ (0 ≤ default 0 duration → (0 <= time_factor duration)%Q)
  ∧ (600 ≤ default 0 duration → (time_factor duration == 1)%Q).
Proof.
  unfold time_factor, py_min.
  set (d := default 0 duration).
  assert (Hd : (inject_Z d / 600 == d # 600)%Q).
  { unfold Qdiv, Qmult, Qinv, Qeq. simpl. lia. }
  destruct (Qle_bool (inject_Z d / 600) 1) eqn:E.
  - apply Qle_bool_iff in E. split; [done|]. split.
    + intros H. rewrite Hd. unfold Qle. simpl. lia.
    + intros H. rewrite Hd in E |- *. unfold Qle, Qeq in *. simpl in *. lia.
  - split; [apply Qle_refl|]. split; [done | reflexivity].
Qed.

Lemma event_weight_cases (event_type : string) :
  (event_type = "skip" ∧ event_weight event_type = (-2)%Q)
  ∨ (event_type ≠ "skip"
     ∧ (0 < event_weight event_type)%Q ∧ (event_weight event_type <= 5)%Q).
Proof.
  unfold event_weight, weights.
  destruct (decide (event_type = "skip")) as [-> | Hne]; [by left|].
  right. split; [done|].
  repeat (rewrite lookup_insert; case_decide; [done|]).
  by rewrite lookup_empty.
Qed.

End ScoreFacts.

(** X6: the recency factor [0.9 ** days_ago] is 1 for an event less than a
    day old; among events at most ten years (3650 days) old it gets
    strictly smaller with every further day of age and is positive; it is
    0.3487 up to 0.0001 for an event ten days old, and never exceeds 1 for
    an event that is not in the future. *)
Theorem recency_factor_decays (clk : clock) :
  (∀ timestamp,
     0 ≤ py_now clk - timestamp < seconds_per_day →
     (Engagement.recency_factor clk timestamp == 1)%Q)
  ∧ (∀ older newer,
       0 ≤ Engagement.days_ago clk newer →
       Engagement.days_ago clk newer < Engagement.days_ago clk older →
       Engagement.days_ago clk older ≤ 3650 →
       (Engagement.recency_factor clk older
        < Engagement.recency_factor clk newer)%Q)
  ∧ (∀ timestamp,
       Engagement.days_ago clk timestamp = 10 →
       (Qabs (Engagement.recency_factor clk timestamp - 0.3487) <= 0.0001)%Q)
  ∧ (∀ timestamp,
       0 ≤ Engagement.days_ago clk timestamp ≤ 3650 →
       (0 < Engagement.recency_factor clk timestamp)%Q)
  ∧ (∀ timestamp,
       timestamp ≤ py_now clk →
       (Engagement.recency_factor clk timestamp <= 1)%Q).
Proof.
  split; [|split; [|split; [|split]]].
  - intros timestamp H. unfold Engagement.recency_factor, Engagement.days_ago.
    rewrite Z.div_small by done. reflexivity.
  - intros older newer _ H _. by apply power_of_nine_tenths_decreasing.
  - intros timestamp H. unfold Engagement.recency_factor. rewrite H.
    by vm_compute.
  - intros timestamp _. apply recency_factor_positive.
  - intros timestamp. apply recency_factor_at_most_one.
Qed.

(** An event of one minute ago and one of eleven days ago. *)
Lemma recency_factor_decays_witness :
  0 ≤ py_now Samples.now - Samples.a_minute_ago < seconds_per_day
  ∧ 0 ≤ Engagement.days_ago Samples.now Samples.a_minute_ago
  ∧ Engagement.days_ago Samples.now Samples.a_minute_ago
    < Engagement.days_ago Samples.now (Samples.a_minute_ago - 950400)
  ∧ Engagement.days_ago Samples.now (Samples.a_minute_ago - 950400) ≤ 3650
  ∧ (Engagement.recency_factor Samples.now Samples.a_minute_ago == 1)%Q
  ∧ (Engagement.recency_factor Samples.now (Samples.a_minute_ago - 950400)
     < Engagement.recency_factor Samples.now Samples.a_minute_ago)%Q
  ∧ (0 < Engagement.recency_factor Samples.now
           (Samples.a_minute_ago - 950400))%Q.
Proof.
  assert (H1 : 0 ≤ py_now Samples.now - Samples.a_minute_ago
               < seconds_per_day) by (by vm_compute).
  assert (H0 : 0 ≤ Engagement.days_ago Samples.now Samples.a_minute_ago)
    by (by vm_compute).
  assert (H2 : Engagement.days_ago Samples.now Samples.a_minute_ago
               < Engagement.days_ago Samples.now
                   (Samples.a_minute_ago - 950400)) by (by vm_compute).
  assert (H3 : Engagement.days_ago Samples.now
                 (Samples.a_minute_ago - 950400) ≤ 3650) by (by vm_compute).
  destruct (recency_factor_decays Samples.now) as (Ha & Hb & _ & Hc & _).
  split; [done|]. split; [done|]. split; [done|]. split; [done|].
  split; [by apply Ha|]. split; [by apply Hb|].
  apply Hc. split; [|done]. lia.
Defined.

(** X7: for an event that is not in the future and has a non-negative (or
    NULL) duration, the per-event score has absolute value at most 5.0; it
    is at most 0 for a skip and at least 0 for every other kind. *)
Theorem event_score_bounded
    (clk : clock) (event_type : string) (duration : option Z)
    (timestamp : Z) :
  timestamp ≤ py_now clk → 0 ≤ default 0 duration →
  (Qabs (Engagement.event_score clk event_type duration timestamp) <= 5)%Q
  ∧ (event_type = "skip" →
     (Engagement.event_score clk event_type duration timestamp <= 0)%Q)
  ∧ (event_type ≠ "skip" →
     (0 <= Engagement.event_score clk event_type duration timestamp)%Q).
Proof.
  intros Hts Hd. unfold Engagement.event_score.
  destruct (time_factor_range duration) as (Ht1 & Ht0 & _).
  specialize (Ht0 Hd).
  pose proof (recency_factor_positive clk timestamp) as Hr0.
  pose proof (recency_factor_at_most_one clk timestamp Hts) as Hr1.
  set (t := Engagement.time_factor duration) in *.
  set (r := Engagement.recency_factor clk timestamp) in *.
  assert (Hx0 : (0 <= t * r)%Q) by nra.
  assert (Hx1 : (t * r <= 1)%Q) by nra.
  destruct (event_weight_cases event_type) as [[-> Hw] | (Hne & Hw0 & Hw5)].
  - rewrite Hw. split; [|split; [|done]].
    + apply Qabs_Qle_condition. split; nra.
    + intros _. nra.
  - set (w := Engagement.event_weight event_type) in *.
    split; [|split; [done|]].
    + apply Qabs_Qle_condition. split; nra.
    + intros _. nra.
Qed.

(** A ten-minute skip of one minute ago has a score between -5 and 0. *)
Lemma event_score_bounded_witness :
  Samples.a_minute_ago ≤ py_now Samples.now
  ∧ 0 ≤ default 0 (Some 600)
  ∧ (Qabs (Engagement.event_score Samples.now "skip" (Some 600%Z)
             Samples.a_minute_ago) <= 5)%Q.
Proof.
  assert (H1 : Samples.a_minute_ago ≤ py_now Samples.now) by (by vm_compute).
  assert (H2 : 0 ≤ default 0 (Some 600)) by (by vm_compute).
  split; [done|]. split; [done|].
  exact (proj1 (event_score_bounded Samples.now "skip" (Some 600)
                  Samples.a_minute_ago H1 H2)).
Defined.

(** ** Sorting in descending order *)

Lemma sorted_desc_insert {A : Type} (key : A → Q) (x : A) (l : list A) :
  sorted_desc key l → sorted_desc key (insert_desc key x l).
Proof.
  unfold sorted_desc. induction 1 as [|y l Hl IH Hy]; simpl.
  - repeat constructor.
  - destruct (Qle_bool (key y) (key x)) eqn:E.
    + apply Qle_bool_iff in E. constructor; [by constructor|].
      constructor; [done|].
      eapply Forall_impl; [exact Hy|]. intros z Hz. simpl in Hz.
      by eapply Qle_trans.
    + constructor; [done|].
      rewrite insert_desc_Permutation. constructor; [|done].
      apply Qlt_le_weak, Qnot_le_lt. intros H.
      apply Qle_bool_iff in H. congruence.
Qed.

Lemma sort_desc_sorted {A : Type} (key : A → Q) (l : list A) :
  sorted_desc key (sort_desc key l).
Proof.
  unfold sort_desc. induction l as [|x l IH]; simpl.
  - constructor.
  - by apply sorted_desc_insert.
Qed.

Lemma sorted_desc_sublist {A : Type} (key : A → Q) (l k : list A) :
  l `sublist_of` k → sorted_desc key k → sorted_desc key l.
Proof.
  unfold sorted_desc. induction 1 as [|x l k Hlk IH|x l k Hlk IH];
    intros Hk; [done| |].
  - apply StronglySorted_inv in Hk as [Hk Hx].
    constructor; [by apply IH|].
    eapply Forall_forall. intros y Hy.
    eapply Forall_forall in Hx; [exact Hx|]. by eapply elem_of_sublist.
  - apply StronglySorted_inv in Hk as [Hk _]. by apply IH.
Qed.

Lemma sorted_desc_fmap {A B : Type} (key : B → Q) (f : A → B) (l : list A) :
  sorted_desc (key ∘ f) l → sorted_desc key (f <$> l).
Proof.
  unfold sorted_desc. induction 1 as [|x l Hl IH Hx]; [constructor|].
  rewrite fmap_cons. constructor; [done|]. by apply Forall_fmap.
Qed.

Lemma sql_limit_bound {A : Type} (n : Z) (l : list A) :
  0 ≤ n → Z.of_nat (length (sql_limit n l)) ≤ n.
Proof.
  intros Hn. unfold sql_limit. destruct (n <? 0) eqn:E; [lia|].
  rewrite length_take. lia.
Qed.

(** ** engagement.py: reading sessions *)


Lemma end_session_other_ids (sessions : list EngagementTracker.session_row)
    (clk : clock) (session_id articles_read total_duration : Z) :
  (∀ row, row ∈ sessions → EngagementTracker.s_id row ≠ session_id) →
  EngagementTracker.end_session sessions clk session_id articles_read
    total_duration = sessions.
Proof.
  intros H. unfold EngagementTracker.end_session.
  induction sessions as [|row sessions IH]; [done|].
  rewrite fmap_cons, IH.
  - rewrite bool_decide_eq_false_2; [done|]. apply H, list_elem_of_here.
  - intros row' Hrow'. by apply H, list_elem_of_further.
Qed.

(** X8: [end_session] with an id that no session has changes nothing (and
    reports nothing). *)
Theorem end_session_unknown_id_changes_nothing
    (sessions : list EngagementTracker.session_row) (clk : clock)
    (session_id articles_read total_duration : Z) :
  (∀ row, row ∈ sessions → EngagementTracker.s_id row ≠ session_id) →
  EngagementTracker.end_session sessions clk session_id articles_read
    total_duration = sessions.
Proof. apply end_session_other_ids. Qed.

(** Ending session 5 in a table that holds only session 1. *)
Lemma end_session_unknown_id_changes_nothing_witness :
  (∀ row, row ∈ MoreSampleResults.one_session →
          EngagementTracker.s_id row ≠ 5)
  ∧ EngagementTracker.end_session MoreSampleResults.one_session Samples.now 5 3
      900 = MoreSampleResults.one_session.
Proof.
  assert (H : ∀ row, row ∈ MoreSampleResults.one_session →
                     EngagementTracker.s_id row ≠ 5).
  { intros row Hrow.
    repeat (apply elem_of_cons in Hrow as [-> | Hrow]; [by vm_compute|]).
    by apply elem_of_nil in Hrow. }
  split; [done|].
  exact (end_session_unknown_id_changes_nothing _ _ _ _ _ H).
Defined.


(** X10: [get_recent_sessions] returns sessions of the given user only,
    each taken from a row of the table, in descending order of start time,
    and at most [limit] of them for a non-negative [limit]. *)
Theorem recent_sessions_of_user_sorted
    (sessions : list EngagementTracker.session_row) (user_id : string)
    (limit : Z) :
  (∀ info,
     info ∈ EngagementTracker.get_recent_sessions sessions user_id limit →
     ∃ row, row ∈ sessions
            ∧ EngagementTracker.s_user_id row = user_id
            ∧ info = EngagementTracker.session_info_of row)
  ∧ sorted_desc (λ info, inject_Z (EngagementTracker.si_start_time info))
      (EngagementTracker.get_recent_sessions sessions user_id limit)
  ∧ (0 ≤ limit →
     Z.of_nat (length (EngagementTracker.get_recent_sessions sessions
                         user_id limit)) ≤ limit).
Proof.
  unfold EngagementTracker.get_recent_sessions. split; [|split].
  - intros info Hinfo.
    apply list_elem_of_fmap in Hinfo as (row & -> & Hrow).
    eapply elem_of_sublist in Hrow; [|apply sql_limit_sublist].
    rewrite sort_desc_Permutation in Hrow.
    apply list_elem_of_filter in Hrow as [Hu Hrow]. by exists row.
  - apply sorted_desc_fmap.
    eapply sorted_desc_sublist; [apply sql_limit_sublist|].
    apply (sort_desc_sorted
             (λ row, inject_Z (EngagementTracker.s_start_time row))).
  - intros Hl. rewrite length_fmap. by apply sql_limit_bound.
Qed.

(** ** recommendations.py: the scorer *)

Lemma py_mapM_elem {A B : Type} (f : A → py_result B) (l : list A)
    (l' : list B) (y : B) :
  py_mapM f l = Ok l' → y ∈ l' → ∃ x, x ∈ l ∧ f x = Ok y.
Proof.
  intros Hl. apply py_mapM_Ok in Hl.
  induction Hl as [|x y' l l' Hxy _ IH]; intros Hy.
  - by apply elem_of_nil in Hy.
  - apply elem_of_cons in Hy as [-> | Hy].
    + exists x. split; [apply list_elem_of_here | done].
    + destruct (IH Hy) as (x' & Hx' & Hf). exists x'.
      split; [by apply list_elem_of_further | done].
Qed.

Section ScorerFacts.
Import Recommendations.

Variable json_loads : string → py_result (list string).

Lemma score_row_spec (w : gmap string Q) (row : article_row)
    (p : article * Q) :
  score_row json_loads w row = Ok p →
  art_id p.1 = a_id row
  ∧ art_access_count p.1 = Some (a_access_count row)
  ∧ load_categories json_loads (a_categories row) = Ok (art_categories p.1)
  ∧ p.2 = total_score w (art_categories p.1) (a_access_count row).
Proof.
  unfold score_row, article_of_row.
  destruct (load_categories json_loads (a_categories row)) as [cats|e];
    simpl; [|done].
  by intros [= <-].
Qed.

Lemma select_candidates_elem (db : database) (w : gmap string Q)
    (ex : gset Z) (row : article_row) :
  row ∈ select_candidates db w ex →
  row ∈ articles db ∧ 0 < a_id row ∧ category_filter w row = true
  ∧ a_id row ∉ ex.
Proof.
  unfold select_candidates. intros H.
  eapply elem_of_sublist in H; [|apply sql_limit_sublist].
  rewrite sort_desc_Permutation in H.
  apply list_elem_of_filter in H as [(H1 & H2 & H3) H]. done.
Qed.

Lemma score_articles_elem (db : database) (w : gmap string Q) (ex : gset Z)
    (scored : list (article * Q)) (p : article * Q) :
  _score_articles json_loads db w ex = Ok scored → p ∈ scored →
  ∃ row, row ∈ select_candidates db w ex
         ∧ score_row json_loads w row = Ok p.
Proof.
  unfold _score_articles.
  destruct (py_mapM (score_row json_loads w) (select_candidates db w ex))
    as [l|e] eqn:E; simpl; [|done].
  intros [= <-] Hp. rewrite sort_desc_Permutation in Hp.
  by eapply py_mapM_elem.
Qed.

Lemma category_score_range (w : gmap string Q) (cats : list string) :
  (∀ k v, w !! k = Some v → (0 < v)%Q ∧ (v <= 1)%Q) →
  (0 < category_score w cats)%Q ∧ (category_score w cats <= 1)%Q.
Proof.
  intros Hw. unfold category_score.
  destruct (dict_truthy w && negb (bool_decide (cats = []))); [|done].
  destruct (match_scores w cats) as [|s rest] eqn:E; [done|].
  pose proof (py_max_seq_elem rest s) as Hm. rewrite <- E in Hm.
  unfold match_scores in Hm. apply list_elem_of_omap in Hm as (k & _ & Hk).
  by apply (Hw k).
Qed.

Lemma popularity_boost_range (access_count : Z) :
  0 ≤ access_count →
  (0 <= popularity_boost access_count)%Q
  ∧ (popularity_boost access_count <= 0.2)%Q.
Proof.
  intros H. unfold popularity_boost, py_min.
  assert (Hd : (inject_Z access_count / 100 == access_count # 100)%Q).
  { unfold Qdiv, Qmult, Qinv, Qeq. simpl. lia. }
  assert (H0 : (0 <= inject_Z access_count / 100)%Q).
  { rewrite Hd. unfold Qle. simpl. lia. }
  destruct (Qle_bool (inject_Z access_count / 100) 1) eqn:E.
  - apply Qle_bool_iff in E. split; nra.
  - split; by vm_compute.
Qed.

Lemma popularity_boost_monotone (ac1 ac2 : Z) :
  ac1 ≤ ac2 → (popularity_boost ac1 <= popularity_boost ac2)%Q.
Proof.
  intros H. unfold popularity_boost, py_min.
  assert (Hle : (inject_Z ac1 / 100 <= inject_Z ac2 / 100)%Q).
  { unfold Qdiv, Qmult, Qinv, Qle. simpl. lia. }
  destruct (Qle_bool (inject_Z ac1 / 100) 1) eqn:E1;
    destruct (Qle_bool (inject_Z ac2 / 100) 1) eqn:E2.
  - nra.
  - apply Qle_bool_iff in E1. nra.
  - apply Qle_bool_iff in E2.
    assert (Hn : ¬ (inject_Z ac1 / 100 <= 1)%Q).
    { intros Hc. apply Qle_bool_iff in Hc. congruence. }
    exfalso. apply Hn. by eapply Qle_trans.
  - apply Qle_refl.
Qed.

Lemma popularity_boost_saturates (access_count : Z) :
  100 ≤ access_count → (popularity_boost access_count == 0.2)%Q.
Proof.
  intros H. unfold popularity_boost, py_min.
  destruct (Qle_bool (inject_Z access_count / 100) 1) eqn:E; [|reflexivity].
  apply Qle_bool_iff in E.
  assert (Hd : (inject_Z access_count / 100 == access_count # 100)%Q).
  { unfold Qdiv, Qmult, Qinv, Qeq. simpl. lia. }
  assert (H1 : (1 <= inject_Z access_count / 100)%Q).
  { rewrite Hd. unfold Qle. simpl. lia. }
  assert (E1 : (inject_Z access_count / 100 == 1)%Q) by by apply Qle_antisym.
  rewrite E1. reflexivity.
Qed.

Lemma total_score_range (w : gmap string Q) (cats : list string)
    (access_count : Z) :
  (∀ k v, w !! k = Some v → (0 < v)%Q ∧ (v <= 1)%Q) →
  0 ≤ access_count →
  (0 < total_score w cats access_count)%Q
  ∧ (total_score w cats access_count <= 0.76)%Q.
Proof.
  intros Hw Hac. unfold total_score.
  destruct (category_score_range w cats Hw) as [Hc0 Hc1].
  destruct (popularity_boost_range access_count Hac) as [Hp0 Hp1].
  split; nra.
Qed.

End ScorerFacts.

(** X11: [_score_articles] never returns an article of the exclusion set;
    every returned article is a row of the table with an id above 0 that
    passes the category filter, and at most 500 articles are returned. *)
Theorem score_articles_respects_filters
    (json_loads : string → py_result (list string)) (db : database)
    (category_weights : gmap string Q) (exclude_set : gset Z)
    (scored : list (Recommendations.article * Q)) :
  Recommendations._score_articles json_loads db category_weights exclude_set
  = Ok scored →
  (∀ p, p ∈ scored →
     (Recommendations.art_id p.1 ∉ exclude_set)
     ∧ 0 < Recommendations.art_id p.1
     ∧ ∃ row, row ∈ articles db
              ∧ a_id row = Recommendations.art_id p.1
              ∧ Recommendations.category_filter category_weights row = true)
  ∧ (length scored ≤ 500)%nat.
Proof.
  intros H. split.
  - intros p Hp.
    destruct (score_articles_elem _ _ _ _ _ _ H Hp) as (row & Hrow & Hs).
    apply select_candidates_elem in Hrow as (Hr & Hid & Hf & Hex).
    apply score_row_spec in Hs as (Ei & _).
    rewrite Ei. split; [done|]. split; [done|]. by exists row.
  - apply score_articles_ids in H. apply Permutation_length in H.
    rewrite !length_fmap in H. rewrite H.
    unfold Recommendations.select_candidates.
    pose proof (sql_limit_bound 500
                  (sort_desc (λ a, inject_Z (a_access_count a))
                     (filter (λ a, 0 < a_id a
                                   ∧ Recommendations.category_filter
                                       category_weights a = true
                                   ∧ a_id a ∉ exclude_set) (articles db))))
      as Hb.
    lia.
Qed.

(** X12: the list returned by [_score_articles] is in descending order of
    score, and the score of each entry is 0.7 times the category score of
    its decoded categories plus 0.3 times the popularity boost of its
    access count. *)
Theorem score_articles_sorted_by_score
    (json_loads : string → py_result (list string)) (db : database)
    (category_weights : gmap string Q) (exclude_set : gset Z)
    (scored : list (Recommendations.article * Q)) :
  Recommendations._score_articles json_loads db category_weights exclude_set
  = Ok scored →
  sorted_desc snd scored
  ∧ ∀ p, p ∈ scored →
      ∃ access_count,
        Recommendations.art_access_count p.1 = Some access_count
        ∧ p.2 = (Recommendations.category_score category_weights
                   (Recommendations.art_categories p.1) * 0.7
                 + Recommendations.popularity_boost access_count * 0.3)%Q.
Proof.
  intros H. split.
  - unfold Recommendations._score_articles in H.
    destruct (py_mapM _ _) as [l|e]; simpl in H; [|done].
    injection H as <-. apply sort_desc_sorted.
  - intros p Hp.
    destruct (score_articles_elem _ _ _ _ _ _ H Hp) as (row & _ & Hs).
    apply score_row_spec in Hs as (_ & Ha & _ & Es).
    by exists (a_access_count row).
Qed.

(** X13: without preference weights the score of a candidate depends on
    its access count alone: it is 0.35 plus 0.3 times the popularity boost,
    does not decrease when the access count grows, and is 0.41 from 100
    accesses on, so the ranking is by popularity up to that cap. *)
Theorem score_without_weights_is_popularity :
  (∀ cats access_count,
     (Recommendations.total_score ∅ cats access_count
      == 0.35 + Recommendations.popularity_boost access_count * 0.3)%Q)
  ∧ (∀ cats1 cats2 ac1 ac2,
       ac1 ≤ ac2 →
       (Recommendations.total_score ∅ cats1 ac1
        <= Recommendations.total_score ∅ cats2 ac2)%Q)
  ∧ (∀ cats access_count,
       100 ≤ access_count →
       (Recommendations.total_score ∅ cats access_count == 0.41)%Q).
Proof.
  assert (E : ∀ cats access_count,
             (Recommendations.total_score ∅ cats access_count
              == 0.35 + Recommendations.popularity_boost access_count * 0.3)%Q).
  { intros cats access_count.
    unfold Recommendations.total_score, Recommendations.category_score.
    change (dict_truthy ∅) with false. simpl. lra. }
  split; [exact E|]. split.
  - intros cats1 cats2 ac1 ac2 H. rewrite !E.
    pose proof (popularity_boost_monotone ac1 ac2 H). lra.
  - intros cats access_count H. rewrite E.
    rewrite (popularity_boost_saturates _ H). reflexivity.
Qed.

(** Two access counts, 3 and 40. *)
Lemma score_without_weights_is_popularity_witness :
  3 ≤ 40
  ∧ (Recommendations.total_score ∅ ["Science"] 3
     <= Recommendations.total_score ∅ ["History"] 40)%Q.
Proof.
  assert (H : 3 ≤ 40) by lia.
  split; [done|].
  exact (proj1 (proj2 score_without_weights_is_popularity)
           ["Science"] ["History"] 3 40 H).
Defined.

(** ** recommendations.py: the feed at the ends of the mix *)

Section MixFacts.
Import Recommendations.

Variable json_loads : string → py_result (list string).

Lemma recommend_count_mix_one (count : Z) (feed_mix : Q) :
  (feed_mix == 1)%Q → recommend_count_of count feed_mix = 0.
Proof.
  intros H. unfold recommend_count_of, py_int.
  destruct feed_mix as [n d]. unfold Qeq in H. simpl in *.
  replace (count * (1 * Z.pos d + - n * 1)) with 0 by lia.
  apply Z.quot_0_l. lia.
Qed.

Lemma recommend_count_mix_zero (count : Z) (feed_mix : Q) :
  (feed_mix == 0)%Q → recommend_count_of count feed_mix = count.
Proof.
  intros H. unfold recommend_count_of, py_int.
  destruct feed_mix as [n d]. unfold Qeq in H. simpl in *.
  replace (count * (1 * Z.pos d + - n * 1)) with (count * Z.pos d) by lia.
  replace (Z.pos (1 * (1 * d))) with (Z.pos d) by lia.
  apply Z.quot_mul. lia.
Qed.

Lemma recommended_pool_entries (scored : list (article * Q)) (rc : Z)
    (a : article) :
  a ∈ recommended_pool scored rc →
  ∃ p, p ∈ scored ∧ a = set_recommendation p.2 "recommended" p.1.
Proof.
  unfold recommended_pool.
  destruct (negb (bool_decide (scored = [])) && (0 <? rc)).
  - intros H. apply list_elem_of_fmap in H as (p & -> & Hp).
    exists p. split; [|done].
    by eapply elem_of_sublist; [|apply py_slice_to_sublist].
  - intros H. by apply elem_of_nil in H.
Qed.

Lemma discovery_pool_entries (db : database) (draws : list nat)
    (ex : gset Z) (n : Z) (disc : list article) (a : article) :
  discovery_pool json_loads db draws ex n = Ok disc → a ∈ disc →
  art_relevance_score a = Some 0.3%Q
  ∧ art_recommendation_type a = Some "discovery".
Proof.
  unfold discovery_pool. destruct (0 <? n).
  - destruct (_get_random_articles json_loads db draws ex n) as [arts|e];
      simpl; [|done].
    intros [= <-] H. by apply list_elem_of_fmap in H as (a' & -> & _).
  - intros [= <-] H. by apply elem_of_nil in H.
Qed.

Lemma discovery_pool_not_positive (db : database) (draws : list nat)
    (ex : gset Z) (n : Z) (disc : list article) :
  n ≤ 0 → discovery_pool json_loads db draws ex n = Ok disc → disc = [].
Proof.
  intros Hn. unfold discovery_pool.
  destruct (0 <? n) eqn:E; [apply Z.ltb_lt in E; lia|]. by intros [= <-].
Qed.

Lemma recommended_pool_not_positive (scored : list (article * Q)) (rc : Z) :
  rc ≤ 0 → recommended_pool scored rc = [].
Proof.
  intros H. unfold recommended_pool.
  destruct (0 <? rc) eqn:E; [apply Z.ltb_lt in E; lia|].
  by rewrite andb_false_r.
Qed.

(** The entries of a returned feed come from the two pools. *)
Lemma feed_entries_from_pools (scored : list (article * Q))
    (disc : list article) (draws : list nat) (rc count : Z) (a : article) :
  a ∈ py_slice_to (shuffle_by draws (recommended_pool scored rc ++ disc))
        count →
  a ∈ recommended_pool scored rc ∨ a ∈ disc.
Proof.
  intros H. eapply elem_of_sublist in H; [|apply py_slice_to_sublist].
  rewrite shuffle_by_Permutation in H. by apply elem_of_app in H.
Qed.

End MixFacts.

(** X14: with [feed_mix = 1.0] nothing is taken from the ranked list: every
    entry of the returned feed is a discovery entry with the relevance
    score 0.3. *)
Theorem feed_mix_one_is_pure_discovery
    (json_loads : string → py_result (list string)) (db : database)
    (sql_draws py_draws : list nat) (user_id : string) (count : Z)
    (feed_mix : Q) (excluded_articles : list Z)
    (feed : list Recommendations.article) :
  (feed_mix == 1)%Q →
  Recommendations.get_recommendations json_loads db sql_draws py_draws
    user_id count feed_mix excluded_articles = Ok feed →
  ∀ a, a ∈ feed →
    Recommendations.art_relevance_score a = Some 0.3%Q
    ∧ Recommendations.art_recommendation_type a = Some "discovery".
Proof.
  intros Hmix H a Ha.
  apply get_recommendations_inv in H as (w & scored & disc & _ & _ & Hd & ->).
  apply feed_entries_from_pools in Ha as [Ha | Ha].
  - rewrite (recommend_count_mix_one _ _ Hmix) in Ha.
    rewrite recommended_pool_not_positive in Ha by lia.
    by apply elem_of_nil in Ha.
  - by eapply discovery_pool_entries.
Qed.

(** X15: with [feed_mix = 0.0] and a [count] that a double holds exactly
    (at most 2 ** 53 in absolute value) no random article is drawn: every
    entry of the returned feed is a recommended entry, and there are at
    most as many as the scorer has candidates. *)
Theorem feed_mix_zero_is_pure_ranking
    (json_loads : string → py_result (list string)) (db : database)
    (sql_draws py_draws : list nat) (user_id : string) (count : Z)
    (feed_mix : Q) (excluded_articles : list Z)
    (feed : list Recommendations.article) :
  (feed_mix == 0)%Q →
  - 2 ^ 53 ≤ count ≤ 2 ^ 53 →
  Recommendations.get_recommendations json_loads db sql_draws py_draws
    user_id count feed_mix excluded_articles = Ok feed →
  (∀ a, a ∈ feed →
     Recommendations.art_recommendation_type a = Some "recommended")
  ∧ ∃ w, Recommendations._get_category_weights db user_id = Ok w
         ∧ (length feed
            ≤ length (Recommendations.select_candidates db w
                        (exclude_set_of db user_id excluded_articles)))%nat.
Proof.
  intros Hmix _ H.
  apply get_recommendations_inv in H
    as (w & scored & disc & Hw & Hs & Hd & ->).
  assert (Hrnd : Recommendations.random_count_of count feed_mix = 0).
  { unfold Recommendations.random_count_of.
    rewrite (recommend_count_mix_zero _ _ Hmix). lia. }
  rewrite Hrnd in Hd.
  apply discovery_pool_not_positive in Hd as ->; [|lia].
  rewrite app_nil_r. split.
  - intros a Ha. eapply elem_of_sublist in Ha; [|apply py_slice_to_sublist].
    rewrite shuffle_by_Permutation in Ha.
    by apply recommended_pool_entries in Ha as (p & _ & ->).
  - exists w. split; [done|].
    apply score_articles_ids in Hs. apply Permutation_length in Hs.
    rewrite !length_fmap in Hs. rewrite <- Hs.
    etrans; [apply sublist_length, py_slice_to_sublist|].
    rewrite (Permutation_length (shuffle_by_Permutation _ _)).
    unfold Recommendations.recommended_pool.
    destruct (_ && _); [|simpl; lia].
    rewrite length_fmap. apply sublist_length, py_slice_to_sublist.
Qed.

(** X16: every entry of a returned feed carries a relevance score; when no
    article has a negative access count the score is positive and at most
    0.76 (0.7 for the best category match plus 0.06 for full
    popularity). *)
Theorem feed_relevance_scores_bounded
    (json_loads : string → py_result (list string)) (db : database)
    (sql_draws py_draws : list nat) (user_id : string) (count : Z)
    (feed_mix : Q) (excluded_articles : list Z)
    (feed : list Recommendations.article) :
  (∀ row, row ∈ articles db → 0 ≤ a_access_count row) →
  Recommendations.get_recommendations json_loads db sql_draws py_draws
    user_id count feed_mix excluded_articles = Ok feed →
  ∀ a, a ∈ feed →
    ∃ s, Recommendations.art_relevance_score a = Some s
         ∧ (0 < s)%Q ∧ (s <= 0.76)%Q.
Proof.
  intros Hac H a Ha.
  apply get_recommendations_inv in H
    as (w & scored & disc & Hw & Hs & Hd & ->).
  destruct (get_category_weights_unit_interval db user_id) as (w' & Hw' & Hr).
  assert (w' = w) as -> by congruence.
  apply feed_entries_from_pools in Ha as [Ha | Ha].
  - apply recommended_pool_entries in Ha as (p & Hp & ->).
    exists p.2. split; [done|].
    destruct (score_articles_elem _ _ _ _ _ _ Hs Hp) as (row & Hrow & Hsr).
    apply select_candidates_elem in Hrow as (Hrow & _).
    apply score_row_spec in Hsr as (_ & _ & _ & ->).
    apply total_score_range; [done | by apply Hac].
  - exists 0.3%Q.
    destruct (discovery_pool_entries _ _ _ _ _ _ _ Hd Ha) as [-> _].
    split; [done|]. split; by vm_compute.
Qed.

(** ** recommendations.py: read articles and the random pool *)

Lemma read_articles_are_viewed_or_read_aux (db : database)
    (user_id : string) (article_id : Z) :
  (∃ e, e ∈ engagement db
        ∧ e_article_id e = article_id
        ∧ e_user_id e = user_id
        ∧ (e_event_type e = "view" ∨ e_event_type e = "read")) →
  article_id ∈ Recommendations._get_read_articles db user_id.
Proof.
  unfold Recommendations._get_read_articles.
  intros (e & He & <- & Hu & Ht).
  rewrite elem_of_remove_dups, list_elem_of_fmap.
  exists e. split; [done|]. by apply list_elem_of_filter.
Qed.

(** X17: [_get_read_articles] lists, without repetition, exactly the
    articles for which the user has a [view] or a [read] event; bookmarks,
    skips and scrolls do not make an article read. *)
Theorem read_articles_are_viewed_or_read
    (db : database) (user_id : string) :
  NoDup (Recommendations._get_read_articles db user_id)
  ∧ ∀ article_id,
      article_id ∈ Recommendations._get_read_articles db user_id
      ↔ ∃ e, e ∈ engagement db
             ∧ e_article_id e = article_id
             ∧ e_user_id e = user_id
             ∧ (e_event_type e = "view" ∨ e_event_type e = "read").
Proof.
  unfold Recommendations._get_read_articles. split.
  - apply NoDup_remove_dups.
  - intros article_id. rewrite elem_of_remove_dups, list_elem_of_fmap.
    split.
    + intros (e & -> & He). apply list_elem_of_filter in He as [[Hu Ht] He].
      by exists e.
    + intros H. apply read_articles_are_viewed_or_read_aux in H.
      unfold Recommendations._get_read_articles in H.
      by rewrite elem_of_remove_dups, list_elem_of_fmap in H.
Qed.

(** X18: once a [view] or [read] event of a user for an article is
    recorded, no feed built afterwards for that user contains the
    article. *)
Theorem viewed_article_leaves_the_feed
    (json_loads : string → py_result (list string)) (db db' : database)
    (clk : clock) (article_id event_id : Z) (event_type user_id : string)
    (duration_seconds : Z) (scroll_depth : Q)
    (sql_draws py_draws : list nat) (count : Z) (feed_mix : Q)
    (excluded_articles : list Z) (feed : list Recommendations.article) :
  event_type = "view" ∨ event_type = "read" →
  Engagement.record_event db clk article_id event_type user_id
    duration_seconds scroll_depth = Ok (db', event_id) →
  Recommendations.get_recommendations json_loads db' sql_draws py_draws
    user_id count feed_mix excluded_articles = Ok feed →
  ∀ a, a ∈ feed → Recommendations.art_id a ≠ article_id.
Proof.
  intros Hty Hrec H a Ha Hid.
  apply record_event_inv in Hrec as (_ & _ & -> & ->).
  unfold with_engagement in H. apply feed_keys_sub in H.
  apply (list_elem_of_fmap_2 entry_key) in Ha.
  eapply elem_of_submseteq in Ha; [|exact H].
  assert (Hex : article_id
                ∈ exclude_set_of
                    {| articles := articles db;
                       categories := categories db;
                       article_categories := article_categories db;
                       engagement :=
                         engagement db
                         ++ [ {| e_id := Engagement.next_rowid (engagement db);
                                 e_article_id := article_id;
                                 e_user_id := user_id;
                                 e_event_type := event_type;
                                 e_duration_seconds := Some duration_seconds;
                                 e_scroll_depth := scroll_depth;
                                 e_timestamp := sql_now clk |} ] |}
                    user_id excluded_articles).
  { unfold exclude_set_of. apply elem_of_list_to_set, elem_of_app. right.
    apply read_articles_are_viewed_or_read_aux.
    eexists. split; [apply elem_of_app; right; apply list_elem_of_here|].
    by simpl. }
  apply elem_of_app in Ha as [Ha | Ha];
    apply list_elem_of_fmap in Ha as (i & Hk & Hi);
    apply list_elem_of_fmap in Hi as (row & -> & Hrow);
    apply list_elem_of_filter in Hrow as [Hnex _];
    injection Hk as Hk _; apply Hnex; by rewrite <- Hk, Hid.
Qed.

(** X19: [_get_random_articles] returns only non-excluded articles of the
    table, at most [count] of them for a non-negative [count], without
    repetition when article ids are unique, and the whole non-excluded pool
    (in some order) when the pool has at most [count] articles. *)
Theorem random_articles_sample_of_pool
    (json_loads : string → py_result (list string)) (db : database)
    (draws : list nat) (exclude_set : gset Z) (count : Z)
    (arts : list Recommendations.article) :
  Recommendations._get_random_articles json_loads db draws exclude_set count
  = Ok arts →
  (∀ a, a ∈ arts →
     (Recommendations.art_id a ∉ exclude_set)
     ∧ ∃ row, row ∈ articles db ∧ a_id row = Recommendations.art_id a)
  ∧ (0 ≤ count → Z.of_nat (length arts) ≤ count)
  ∧ (NoDup (a_id <$> articles db) →
     NoDup (Recommendations.art_id <$> arts))
  ∧ (Z.of_nat (length (filter (λ a, a_id a ∉ exclude_set) (articles db)))
     ≤ count →
     Recommendations.art_id <$> arts
     ≡ₚ a_id <$> filter (λ a, a_id a ∉ exclude_set) (articles db)).
Proof.
  intros H. apply random_articles_ids in H as [Hids _].
  set (pool := filter (λ a, a_id a ∉ exclude_set) (articles db)) in *.
  split; [|split; [|split]].
  - intros a Ha. apply (list_elem_of_fmap_2 Recommendations.art_id) in Ha.
    rewrite Hids in Ha. apply list_elem_of_fmap in Ha as (row & -> & Hrow).
    eapply elem_of_sublist in Hrow; [|apply sql_limit_sublist].
    rewrite shuffle_by_Permutation in Hrow.
    apply list_elem_of_filter in Hrow as [Hex Hrow].
    split; [done | by exists row].
  - intros Hc.
    rewrite <- (length_fmap Recommendations.art_id), Hids, length_fmap.
    by apply sql_limit_bound.
  - intros Hnd. rewrite Hids. eapply submseteq_NoDup; [exact Hnd|].
    apply fmap_submseteq. etrans; [apply random_pool_sub|].
    apply sublist_submseteq, sublist_filter.
  - intros Hc. rewrite Hids. apply fmap_Permutation.
    unfold sql_limit. destruct (count <? 0); [apply shuffle_by_Permutation|].
    rewrite take_ge; [apply shuffle_by_Permutation|].
    rewrite (Permutation_length (shuffle_by_Permutation _ _)). lia.
Qed.

(** ** SQLite's [LIKE] with a pattern without wildcards of its own *)

Lemma sql_like_percent (text : string) : sql_like "%" text = true.
Proof. induction text as [|c text IH]; [done|]. simpl in *. exact IH. Qed.

Lemma sql_like_prefix (cat text : string) :
  no_wildcard cat = true →
  sql_like (cat +:+ "%") text
  = String.prefix (str_lower cat) (str_lower text).
Proof.
  revert text. induction cat as [|c cat IH]; intros text Hc.
  - change ("" +:+ "%") with "%". rewrite (sql_like_percent text).
    by destruct text.
  - simpl in Hc. apply andb_prop in Hc as [Hc Hcat].
    apply andb_prop in Hc as [Hp Hu].
    apply negb_true_iff in Hp, Hu.
    change (String c cat +:+ "%") with (String c (cat +:+ "%")).
    cbn [sql_like]. rewrite Hp, Hu.
    destruct text as [|t text]; [done|].
    cbn [str_lower String.prefix]. rewrite IH by done.
    destruct (Ascii.eqb_spec (ascii_lower c) (ascii_lower t)) as [E|E].
    + by destruct (ascii_dec (ascii_lower c) (ascii_lower t)).
    + by destruct (ascii_dec (ascii_lower c) (ascii_lower t)).
Qed.

Lemma sql_like_percent_cons (pattern text : string) :
  sql_like (String "%" pattern) text
  = sql_like pattern text
    || match text with
       | EmptyString => false
       | String _ text' => sql_like (String "%" pattern) text'
       end.
Proof. by destruct text. Qed.

Lemma sql_like_substring (cat text : string) :
  no_wildcard cat = true →
  sql_like ("%" +:+ cat +:+ "%") text
  = str_contains (str_lower cat) (str_lower text).
Proof.
  intros Hc. change ("%" +:+ cat +:+ "%") with (String "%" (cat +:+ "%")).
  induction text as [|t text IH]; rewrite sql_like_percent_cons;
    rewrite (sql_like_prefix _ _ Hc); cbn [str_lower str_contains].
  - done.
  - by rewrite IH.
Qed.

Lemma dict_truthy_nonempty (d : gmap string Q) :
  dict_truthy d = true ↔ d ≠ ∅.
Proof.
  unfold dict_truthy. rewrite negb_true_iff, bool_decide_eq_false.
  by rewrite map_to_list_empty_iff.
Qed.

Lemma dict_keys_elem (d : gmap string Q) (k : string) :
  k ∈ (map_to_list d).*1 ↔ is_Some (d !! k).
Proof.
  rewrite list_elem_of_fmap. split.
  - intros ([k' v] & -> & H). apply elem_of_map_to_list in H. by exists v.
  - intros [v Hv]. exists (k, v). split; [done|].
    by apply elem_of_map_to_list.
Qed.

(** X20: the category filter of the scorer is a case-insensitive substring
    test on the stored category text.  Without weights every article
    passes; with weights whose names contain neither [%] nor [_], an
    article passes exactly when its stored text is not NULL and contains
    the name of a weighted category, upper and lower case letters being
    identified. *)
Theorem category_filter_is_substring_match
    (category_weights : gmap string Q) (row : article_row) :
  Recommendations.category_filter ∅ row = true
  ∧ (category_weights ≠ ∅ →
     (∀ k, is_Some (category_weights !! k) → no_wildcard k = true) →
     (Recommendations.category_filter category_weights row = true
      ↔ ∃ k text,
          is_Some (category_weights !! k)
          ∧ a_categories row = Some text
          ∧ str_contains (str_lower k) (str_lower text) = true)).
Proof.
  split; [done|]. intros Hne Hw. unfold Recommendations.category_filter.
  rewrite (proj2 (dict_truthy_nonempty _) Hne), existsb_exists. split.
  - intros (k & Hk & Hm). apply list_elem_of_In, dict_keys_elem in Hk.
    destruct (a_categories row) as [text|]; [|done].
    exists k, text. split; [done|]. split; [done|].
    by rewrite <- (sql_like_substring k text (Hw k Hk)).
  - intros (k & text & Hk & -> & Hm). exists k. split.
    + by apply list_elem_of_In, dict_keys_elem.
    + by rewrite (sql_like_substring k text (Hw k Hk)).
Qed.

(** ** recommendations.py: browsing and searching *)

Lemma sorted_desc_Forall2 {A B : Type} (key : A → Q) (key' : B → Q)
    (R : A → B → Prop) (l : list A) (l' : list B) :
  (∀ x y, R x y → key' y = key x) →
  Forall2 R l l' → sorted_desc key l → sorted_desc key' l'.
Proof.
  intros HR H. unfold sorted_desc.
  induction H as [|x y l l' Hxy Hl IH]; intros Hs; [constructor|].
  apply StronglySorted_inv in Hs as [Hs Hx].
  constructor; [by apply IH|].
  rewrite (HR x y Hxy). clear IH Hs.
  induction Hl as [|x' y' l l' Hxy' _ IH]; [constructor|].
  apply Forall_cons in Hx as [Hx' Hx].
  constructor; [by rewrite (HR x' y' Hxy') | by apply IH].
Qed.

Section BrowseFacts.
Import Recommendations RecommendationEngine.

Variable json_loads : string → py_result (list string).

Lemma select_by_category_elem (db : database) (category : string)
    (row : article_row) :
  row ∈ select_by_category db category ↔
  row ∈ articles db
  ∧ ∃ ac c, ac ∈ article_categories db ∧ c ∈ categories db
            ∧ a_id row = ac_article_id ac
            ∧ ac_category_id ac = c_id c
            ∧ c_name c = category.
Proof.
  unfold select_by_category. rewrite list_elem_of_bind. split.
  - intros (a & Ha & Hrow).
    apply list_elem_of_bind in Ha as (ac & Ha & Hac).
    apply list_elem_of_bind in Ha as (c & Ha & Hc).
    destruct (bool_decide (a_id a = ac_article_id ac)) eqn:E1;
      [|by apply elem_of_nil in Ha].
    destruct (bool_decide (ac_category_id ac = c_id c)) eqn:E2;
      [|by apply elem_of_nil in Ha].
    destruct (bool_decide (c_name c = category)) eqn:E3;
      [|by apply elem_of_nil in Ha].
    apply list_elem_of_singleton in Ha as ->.
    apply bool_decide_eq_true in E1, E2, E3.
    split; [done|]. by exists ac, c.
  - intros (Hrow & ac & c & Hac & Hc & E1 & E2 & E3).
    exists row. split; [|done].
    apply list_elem_of_bind. exists ac. split; [|done].
    apply list_elem_of_bind. exists c. split; [|done].
    rewrite !bool_decide_eq_true_2 by done. apply list_elem_of_here.
Qed.

End BrowseFacts.

(** X21: [get_category_browse] returns only articles linked to a category
    of the given name, in descending order of access count, and at most
    [count] of them for a non-negative [count]. *)
Theorem category_browse_by_popularity
    (json_loads : string → py_result (list string)) (db : database)
    (category : string) (count : Z) (arts : list Recommendations.article) :
  RecommendationEngine.get_category_browse json_loads db category count
  = Ok arts →
  (∀ a, a ∈ arts →
     ∃ row ac c,
       row ∈ articles db ∧ ac ∈ article_categories db ∧ c ∈ categories db
       ∧ a_id row = Recommendations.art_id a
       ∧ ac_article_id ac = a_id row
       ∧ ac_category_id ac = c_id c
       ∧ c_name c = category)
  ∧ sorted_desc
      (λ a, inject_Z (default 0 (Recommendations.art_access_count a))) arts
  ∧ (0 ≤ count → Z.of_nat (length arts) ≤ count).
Proof.
  unfold RecommendationEngine.get_category_browse. intros H.
  split; [|split].
  - intros a Ha.
    destruct (py_mapM_elem _ _ _ _ H Ha) as (row & Hrow & Hr).
    eapply elem_of_sublist in Hrow; [|apply sql_limit_sublist].
    rewrite sort_desc_Permutation in Hrow.
    apply select_by_category_elem in Hrow
      as (Hrow & ac & c & Hac & Hc & E1 & E2 & E3).
    apply article_of_row_id in Hr as [Hid _].
    exists row, ac, c. by rewrite Hid.
  - eapply (sorted_desc_Forall2 (λ row, inject_Z (a_access_count row)));
      [|apply py_mapM_Ok, H|].
    + intros row a Hr. simpl in Hr.
      unfold Recommendations.article_of_row in Hr.
      destruct (Recommendations.load_categories _ _); simpl in Hr; [|done].
      by injection Hr as <-.
    + eapply sorted_desc_sublist; [apply sql_limit_sublist|].
      apply (sort_desc_sorted (λ a, inject_Z (a_access_count a))).
  - intros Hc. rewrite (py_mapM_length _ _ _ H). by apply sql_limit_bound.
Qed.

(** X22: [search_articles] returns only articles whose title or content
    matches the pattern built from the query, taken in descending order of
    access count, at most [count] of them for a non-negative [count]; for a
    query without [%] and [_] an article matches exactly when the query
    occurs in its title or content, upper and lower case letters being
    identified, so that the empty query matches every article. *)
Theorem search_matches_title_or_content
    (json_loads : string → py_result (list string)) (db : database)
    (query : string) (count : Z) (arts : list Recommendations.article) :
  RecommendationEngine.search_articles json_loads db query count = Ok arts →
  (∃ rows,
     Forall2 (λ row a, Recommendations.art_id a = a_id row
                       ∧ Recommendations.art_title a = a_title row
                       ∧ Recommendations.art_content a = a_content row)
       rows arts
     ∧ Forall (λ row, row ∈ articles db
                      ∧ RecommendationEngine.matches_query query row = true)
         rows
     ∧ sorted_desc (λ row, inject_Z (a_access_count row)) rows)
  ∧ (0 ≤ count → Z.of_nat (length arts) ≤ count)
  ∧ (no_wildcard query = true →
     ∀ row, RecommendationEngine.matches_query query row
            = str_contains (str_lower query) (str_lower (a_title row))
              || str_contains (str_lower query) (str_lower (a_content row)))
  ∧ (∀ row, RecommendationEngine.matches_query "" row = true).
Proof.
  unfold RecommendationEngine.search_articles. intros H.
  split; [|split; [|split]].
  - eexists. split; [|split].
    + eapply Forall2_impl; [apply py_mapM_Ok, H|].
      intros row a Hr. simpl in Hr.
      unfold Recommendations.article_of_row in Hr.
      destruct (Recommendations.load_categories _ _); simpl in Hr; [|done].
      by injection Hr as <-.
    + apply Forall_forall. intros row Hrow.
      eapply elem_of_sublist in Hrow; [|apply sql_limit_sublist].
      rewrite sort_desc_Permutation in Hrow.
      by apply list_elem_of_filter in Hrow as [? ?].
    + eapply sorted_desc_sublist; [apply sql_limit_sublist|].
      apply (sort_desc_sorted (λ a, inject_Z (a_access_count a))).
  - intros Hc. rewrite (py_mapM_length _ _ _ H). by apply sql_limit_bound.
  - intros Hq row. unfold RecommendationEngine.matches_query.
    by rewrite !(sql_like_substring query _ Hq).
  - intros row. unfold RecommendationEngine.matches_query.
    rewrite (sql_like_substring "" _ eq_refl). simpl.
    by destruct (str_lower (a_title row)).
Qed.

(** ** server.py: what the classifiers return *)

Section ClassifierInvariants.
Import Server.

Lemma ascii_lower_idempotent (c : ascii) :
  ascii_lower (ascii_lower c) = ascii_lower c.
Proof. by destruct c as [[] [] [] [] [] [] [] []]. Qed.

Lemma str_lower_idempotent (s : string) : str_lower (str_lower s) = str_lower s.
Proof.
  induction s as [|c s IH]; [done|]. simpl.
  by rewrite ascii_lower_idempotent, IH.
Qed.

Lemma keyword_score_positive (text_lower : string) (keywords : list string) :
  (0 < keyword_score text_lower keywords)%nat
  ↔ ∃ kw, kw ∈ keywords ∧ str_contains kw text_lower = true.
Proof.
  unfold keyword_score. split.
  - intros H.
    destruct (filter (λ kw, str_contains kw text_lower = true) keywords)
      as [|kw l] eqn:E; [simpl in H; lia|].
    assert (Hin : kw ∈ filter (λ kw, str_contains kw text_lower = true)
                         keywords) by (rewrite E; apply list_elem_of_here).
    apply list_elem_of_filter in Hin as [Hc Hkw]. by exists kw.
  - intros (kw & Hkw & Hc).
    assert (Hin : kw ∈ filter (λ kw, str_contains kw text_lower = true)
                         keywords) by by apply list_elem_of_filter.
    destruct (filter _ keywords); [by apply elem_of_nil in Hin|].
    simpl. lia.
Qed.

Lemma keyword_categories_elem (text_lower cat : string) :
  cat ∈ keyword_categories text_lower
  ↔ ∃ kws kw, (cat, kws) ∈ CATEGORY_KEYWORDS ∧ kw ∈ kws
              ∧ str_contains kw text_lower = true.
Proof.
  unfold keyword_categories. rewrite list_elem_of_fmap. split.
  - intros ([cat' kws] & -> & H). apply list_elem_of_filter in H as [Hs H].
    apply keyword_score_positive in Hs as (kw & Hkw & Hc).
    by exists kws, kw.
  - intros (kws & kw & H & Hkw & Hc). exists (cat, kws). split; [done|].
    apply list_elem_of_filter. split; [|done].
    apply keyword_score_positive. by exists kw.
Qed.

Lemma keyword_categories_sublist (text_lower : string) :
  keyword_categories text_lower `sublist_of` CATEGORY_KEYWORDS.*1.
Proof. unfold keyword_categories. apply fmap_sublist, sublist_filter. Qed.

Lemma existsb_person (text_lower : string) :
  existsb (λ kw, str_contains kw text_lower) person_keywords = true
  ↔ ∃ kw, kw ∈ person_keywords ∧ str_contains kw text_lower = true.
Proof.
  rewrite existsb_exists. split; intros (kw & H1 & H2); exists kw;
    (split; [by apply list_elem_of_In | done]).
Qed.

End ClassifierInvariants.

(** X23: [extract_categories] never returns an empty list; the categories
    it returns are distinct names of the taxonomy, [General] appears only
    as the sole entry, and the result does not depend on the case of the
    letters of the text. *)
Theorem extract_categories_invariants (text : string) :
  Server.extract_categories text ≠ []
  ∧ NoDup (Server.extract_categories text)
  ∧ (∀ cat, cat ∈ Server.extract_categories text → cat ∈ taxonomy)
  ∧ ("General" ∈ Server.extract_categories text →
     Server.extract_categories text = ["General"])
  ∧ Server.extract_categories (str_lower text)
    = Server.extract_categories text.
Proof.
  assert (Hnames : NoDup (Server.CATEGORY_KEYWORDS.*1)
                   ∧ ("General" ∉ Server.CATEGORY_KEYWORDS.*1)
                   ∧ ∀ cat, cat ∈ Server.CATEGORY_KEYWORDS.*1 →
                            cat ∈ taxonomy).
  { split; [|split].
    - compute_done.
    - compute_done.
    - intros cat Hcat.
      repeat (apply elem_of_cons in Hcat as [-> | Hcat];
              [compute_done|]).
      by apply elem_of_nil in Hcat. }
  destruct Hnames as (Hnd & Hgen & Htax).
  pose proof (keyword_categories_sublist (str_lower text)) as Hsub.
  unfold Server.extract_categories. rewrite str_lower_idempotent.
  set (cats0 := Server.keyword_categories (str_lower text)) in *.
  set (cats1 := if existsb _ Server.person_keywords
                then if bool_decide ("People" ∈@{list string} cats0)
                     then cats0 else cats0 ++ ["People"]
                else cats0).
  assert (H1 : NoDup cats1 ∧ ("General" ∉ cats1)
               ∧ ∀ cat, cat ∈ cats1 → cat ∈ taxonomy).
  { assert (H0 : NoDup cats0 ∧ ("General" ∉ cats0)
                 ∧ ∀ cat, cat ∈ cats0 → cat ∈ taxonomy).
    { split; [by eapply sublist_NoDup|]. split.
      - intros H. apply Hgen. by eapply elem_of_sublist.
      - intros cat H. apply Htax. by eapply elem_of_sublist. }
    subst cats1. destruct (existsb _ _); [|done].
    case_bool_decide as Hp; [done|].
    destruct H0 as (Hn0 & Hg0 & Ht0). split; [|split].
    - apply NoDup_app. split; [done|]. split; [|apply NoDup_singleton].
      intros cat Hc Hc'. apply list_elem_of_singleton in Hc' as ->. done.
    - intros H. apply elem_of_app in H as [H | H]; [done|].
      by apply list_elem_of_singleton in H.
    - intros cat H. apply elem_of_app in H as [H | H]; [by apply Ht0|].
      apply list_elem_of_singleton in H as ->.
      compute_done. }
  destruct H1 as (Hn1 & Hg1 & Ht1).
  case_bool_decide as He.
  - split; [done|]. split; [apply NoDup_singleton|]. split; [|done].
    intros cat H. apply list_elem_of_singleton in H as ->.
    compute_done.
  - done.
Qed.

(** X24: what [extract_categories] returns, category by category: a
    category is returned exactly when one of its keywords occurs in the
    lower-cased text, [People] also when a person keyword occurs, and
    [General] exactly when no keyword of either kind occurs. *)
Theorem extract_categories_characterised (text cat : string) :
  cat ∈ Server.extract_categories text
  ↔ (∃ kws kw, (cat, kws) ∈ Server.CATEGORY_KEYWORDS ∧ kw ∈ kws
               ∧ str_contains kw (str_lower text) = true)
    ∨ (cat = "People"
       ∧ ∃ kw, kw ∈ Server.person_keywords
               ∧ str_contains kw (str_lower text) = true)
    ∨ (cat = "General"
       ∧ (∀ c kws kw, (c, kws) ∈ Server.CATEGORY_KEYWORDS → kw ∈ kws →
                      str_contains kw (str_lower text) = false)
       ∧ (∀ kw, kw ∈ Server.person_keywords →
                str_contains kw (str_lower text) = false)).
Proof.
  unfold Server.extract_categories.
  set (tl := str_lower text).
  set (cats0 := Server.keyword_categories tl).
  set (person := existsb (λ kw, str_contains kw tl) Server.person_keywords).
  set (cats1 := if person
                then if bool_decide ("People" ∈@{list string} cats0)
                     then cats0 else cats0 ++ ["People"]
                else cats0).
  assert (H1 : ∀ c, c ∈ cats1
                    ↔ c ∈ cats0 ∨ (c = "People" ∧ person = true)).
  { intros c. subst cats1. destruct person.
    - case_bool_decide as Hp.
      + split; [by left|]. intros [H | [-> _]]; done.
      + rewrite elem_of_app, list_elem_of_singleton.
        split; (intros [H | H]; [by left | right]); [done | by destruct H].
    - split; [by left | by intros [H | [_ H]]]. }
  assert (Hnone : cats1 = []
                  ↔ (∀ c kws kw, (c, kws) ∈ Server.CATEGORY_KEYWORDS →
                                 kw ∈ kws → str_contains kw tl = false)
                    ∧ (∀ kw, kw ∈ Server.person_keywords →
                             str_contains kw tl = false)).
  { split.
    - intros E. split.
      + intros c kws kw Hc Hkw.
        destruct (str_contains kw tl) eqn:Ec; [|done]. exfalso.
        assert (Hin : c ∈ cats1).
        { apply H1. left. apply keyword_categories_elem. by exists kws, kw. }
        rewrite E in Hin. by apply elem_of_nil in Hin.
      + intros kw Hkw. destruct (str_contains kw tl) eqn:Ec; [|done]. exfalso.
        assert (Hin : "People" ∈ cats1).
        { apply H1. right. split; [done|]. apply existsb_person.
          by exists kw. }
        rewrite E in Hin. by apply elem_of_nil in Hin.
    - intros [Hc Hp]. apply elem_of_nil_inv. intros c Hin.
      apply H1 in Hin as [Hin | [_ Hin]].
      + apply keyword_categories_elem in Hin as (kws & kw & H & Hkw & Ec).
        rewrite (Hc c kws kw H Hkw) in Ec. done.
      + apply existsb_person in Hin as (kw & Hkw & Ec).
        rewrite (Hp kw Hkw) in Ec. done. }
  assert (Hgen : ¬ ("General" ∈ cats1)).
  { intros Hin. apply H1 in Hin as [Hin | [? _]]; [|done].
    apply keyword_categories_elem in Hin as (kws & kw & H & _).
    revert H. compute_done. }
  case_bool_decide as He.
  - rewrite list_elem_of_singleton. split.
    + intros ->. right. right. split; [done|]. by apply Hnone.
    + intros [H | [H | [-> _]]]; [| |done]; exfalso.
      * destruct H as (kws & kw & H & Hkw & Ec).
        assert (Hin : cat ∈ cats1).
        { apply H1. left. apply keyword_categories_elem. by exists kws, kw. }
        rewrite He in Hin. by apply elem_of_nil in Hin.
      * destruct H as (-> & kw & Hkw & Ec).
        assert (Hin : "People" ∈ cats1).
        { apply H1. right. split; [done|]. apply existsb_person.
          by exists kw. }
        rewrite He in Hin. by apply elem_of_nil in Hin.
  - rewrite H1. split.
    + intros [H | [-> H]].
      * left. by apply keyword_categories_elem.
      * right. left. split; [done|]. by apply existsb_person.
    + intros [H | [[-> H] | (-> & H)]].
      * left. by apply keyword_categories_elem.
      * right. split; [done|]. by apply existsb_person.
      * exfalso. by apply He, Hnone.
Qed.

Section MapCategoriesFacts.
Import ServerCategories.

Lemma matched_by_sublist (wiki_cat : string) :
  matched_by wiki_cat `sublist_of` category_map.*1.
Proof. unfold matched_by. apply fmap_sublist, sublist_filter. Qed.

Lemma matched_elem (wiki_categories : list string) (cat : string) :
  cat ∈ matched wiki_categories
  ↔ ∃ wiki_cat, wiki_cat ∈ wiki_categories ∧ cat ∈ matched_by wiki_cat.
Proof.
  unfold matched. rewrite elem_of_list_to_set, list_elem_of_bind.
  split; intros (wc & H1 & H2); by exists wc.
Qed.

Lemma matched_by_elem (wiki_cat cat : string) :
  cat ∈ matched_by wiki_cat
  ↔ ∃ kws kw, (cat, kws) ∈ category_map ∧ kw ∈ kws
              ∧ str_contains kw (str_lower wiki_cat) = true.
Proof.
  unfold matched_by. rewrite list_elem_of_fmap. split.
  - intros ([cat' kws] & -> & H). apply list_elem_of_filter in H as [Hs H].
    apply existsb_exists in Hs as (kw & Hkw & Hc).
    exists kws, kw. split; [done|].
    split; [by apply list_elem_of_In | done].
  - intros (kws & kw & H & Hkw & Hc). exists (cat, kws). split; [done|].
    apply list_elem_of_filter. split; [|done].
    apply existsb_exists. exists kw.
    split; [by apply list_elem_of_In | done].
Qed.

End MapCategoriesFacts.

(** X25: [map_categories] returns [General] alone for an empty list and
    whenever no keyword occurs in any of the given Wikipedia categories;
    otherwise it returns, without repetition, exactly the categories one of
    whose keywords occurs in the lower-cased name of at least one given
    category.  The result is never empty and consists of taxonomy names,
    and its members do not depend on the order of the given categories. *)
Theorem map_categories_characterised (wiki_categories : list string) :
  ServerCategories.map_categories [] = ["General"]
  ∧ ServerCategories.map_categories wiki_categories ≠ []
  ∧ NoDup (ServerCategories.map_categories wiki_categories)
  ∧ (∀ cat, cat ∈ ServerCategories.map_categories wiki_categories →
            cat ∈ taxonomy)
  ∧ (∀ cat,
       cat ∈ ServerCategories.map_categories wiki_categories
       ↔ (∃ wiki_cat kws kw,
            wiki_cat ∈ wiki_categories
            ∧ (cat, kws) ∈ ServerCategories.category_map ∧ kw ∈ kws
            ∧ str_contains kw (str_lower wiki_cat) = true)
         ∨ (cat = "General"
            ∧ ∀ wiki_cat kws kw c,
                wiki_cat ∈ wiki_categories →
                (c, kws) ∈ ServerCategories.category_map → kw ∈ kws →
                str_contains kw (str_lower wiki_cat) = false))
  ∧ (∀ wiki_categories' cat,
       wiki_categories ≡ₚ wiki_categories' →
       cat ∈ ServerCategories.map_categories wiki_categories
       ↔ cat ∈ ServerCategories.map_categories wiki_categories').
Proof.
  assert (Hm : ∀ cat,
             cat ∈ ServerCategories.matched wiki_categories
             ↔ ∃ wiki_cat kws kw,
                 wiki_cat ∈ wiki_categories
                 ∧ (cat, kws) ∈ ServerCategories.category_map ∧ kw ∈ kws
                 ∧ str_contains kw (str_lower wiki_cat) = true).
  { intros cat. rewrite matched_elem. split.
    - intros (wc & Hwc & H). apply matched_by_elem in H as (kws & kw & H).
      by exists wc, kws, kw.
    - intros (wc & kws & kw & Hwc & H). exists wc. split; [done|].
      apply matched_by_elem. by exists kws, kw. }
  assert (Htax : ∀ cat, cat ∈ ServerCategories.matched wiki_categories →
                        cat ∈ taxonomy ∧ cat ≠ "General").
  { intros cat H. apply matched_elem in H as (wc & _ & H).
    eapply elem_of_sublist in H; [|apply matched_by_sublist].
    repeat (apply elem_of_cons in H as [-> | H];
            [split; [compute_done | done]|]).
    by apply elem_of_nil in H. }
  split; [done|]. unfold ServerCategories.map_categories.
  split; [|split; [|split; [|split]]].
  - case_bool_decide as He; [done|]. intros H.
    apply elements_empty_inv in H. apply He. by apply leibniz_equiv.
  - case_bool_decide as He; [apply NoDup_singleton | apply NoDup_elements].
  - intros cat. case_bool_decide as He.
    + intros H. apply list_elem_of_singleton in H as ->. compute_done.
    + rewrite elem_of_elements. intros H. by apply Htax.
  - intros cat. case_bool_decide as He.
    + rewrite list_elem_of_singleton. split.
      * intros ->. right. split; [done|].
        intros wc kws kw c Hwc Hc Hkw.
        destruct (str_contains kw (str_lower wc)) eqn:E; [|done]. exfalso.
        assert (Hin : c ∈ ServerCategories.matched wiki_categories)
          by (apply Hm; by exists wc, kws, kw).
        rewrite He in Hin. by apply not_elem_of_empty in Hin.
      * intros [H | [-> _]]; [|done]. exfalso. apply Hm in H.
        rewrite He in H. by apply not_elem_of_empty in H.
    + rewrite elem_of_elements, Hm. split; [by left|].
      intros [H | [-> H]]; [done|]. exfalso. apply He.
      apply set_eq. intros c. split; [|by intros ?%not_elem_of_empty].
      intros Hc. apply Hm in Hc as (wc & kws & kw & Hwc & Hck & Hkw & E).
      rewrite (H wc kws kw c Hwc Hck Hkw) in E. done.
  - intros wiki_categories' cat Hp.
    assert (E : ServerCategories.matched wiki_categories
                = ServerCategories.matched wiki_categories').
    { apply set_eq. intros c. rewrite !matched_elem.
      split; intros (wc & Hwc & H); exists wc; (split; [|done]).
      - by rewrite <- Hp.
      - by rewrite Hp. }
    by rewrite E.
Qed.

(** ** Instances of the properties above on the sample databases *)

(** Articles 1 and 8 of [captain] in [Samples.db_view_and_skip] after a
    bookmark of article 1, stored under the id 3. *)
Lemma record_event_updates_one_summary_witness :
  Engagement.record_event Samples.db_view_and_skip Samples.now 1
    "bookmark" "captain" 40 0%Q = Ok (MoreSampleResults.db_after_bookmark, 3)
  ∧ ¬ (8 = 1 ∧ "captain" = "captain")
  ∧ EngagementTracker.bookmarks
      (EngagementTracker.get_article_engagement
         MoreSampleResults.db_after_bookmark 1 "captain")
    = EngagementTracker.bookmarks
        (EngagementTracker.get_article_engagement Samples.db_view_and_skip
           1 "captain") + 1
  ∧ EngagementTracker.get_article_engagement
      MoreSampleResults.db_after_bookmark 8 "captain"
    = EngagementTracker.get_article_engagement Samples.db_view_and_skip
        8 "captain".
Proof.
  assert (Hr : Engagement.record_event Samples.db_view_and_skip Samples.now
                 1 "bookmark" "captain" 40 0%Q
               = Ok (MoreSampleResults.db_after_bookmark, 3))
    by (by vm_compute).
  assert (H : ¬ (8 = 1 ∧ "captain" = "captain")) by (intros [? _]; lia).
  split; [done|]. split; [done|].
  destruct (record_event_updates_one_summary _ _ _ _ _ _ _ _ _ Hr)
    as (_ & Hb & _ & Hother).
  split; [exact Hb | by apply Hother].
Defined.

(** The two most recent sessions of [captain] in a table of one. *)
Lemma recent_sessions_of_user_sorted_witness :
  0 ≤ 2
  ∧ Z.of_nat (length (EngagementTracker.get_recent_sessions
                        MoreSampleResults.one_session "captain" 2)) ≤ 2.
Proof.
  assert (H : 0 ≤ 2) by lia.
  split; [done|].
  exact (proj2 (proj2 (recent_sessions_of_user_sorted
                         MoreSampleResults.one_session "captain" 2)) H).
Defined.

(** The scored list of the three sample articles. *)
Lemma score_articles_respects_filters_witness :
  Recommendations._score_articles json_loads_names Samples.db_three_articles
    ∅ {[3]} = Ok MoreSampleResults.three_scored
  ∧ (length MoreSampleResults.three_scored ≤ 500)%nat.
Proof.
  assert (H : Recommendations._score_articles json_loads_names
                Samples.db_three_articles ∅ {[3]}
              = Ok MoreSampleResults.three_scored) by (by vm_compute).
  split; [done|].
  exact (proj2 (score_articles_respects_filters _ _ _ _ _ H)).
Defined.

Lemma score_articles_sorted_by_score_witness :
  Recommendations._score_articles json_loads_names Samples.db_three_articles
    ∅ {[3]} = Ok MoreSampleResults.three_scored
  ∧ sorted_desc snd MoreSampleResults.three_scored.
Proof.
  assert (H : Recommendations._score_articles json_loads_names
                Samples.db_three_articles ∅ {[3]}
              = Ok MoreSampleResults.three_scored) by (by vm_compute).
  split; [done|].
  exact (proj1 (score_articles_sorted_by_score _ _ _ _ _ H)).
Defined.

(** A feed with [feed_mix = 1.0]. *)
Lemma feed_mix_one_is_pure_discovery_witness :
  (1 == 1)%Q
  ∧ Recommendations.get_recommendations json_loads_names
      Samples.db_three_articles [1; 0]%nat [2; 0]%nat "captain" 2 1%Q []
    = Ok MoreSampleResults.discovery_only_feed
  ∧ ∀ a, a ∈ MoreSampleResults.discovery_only_feed →
         Recommendations.art_relevance_score a = Some 0.3%Q
         ∧ Recommendations.art_recommendation_type a = Some "discovery".
Proof.
  assert (Hm : (1 == 1)%Q) by reflexivity.
  assert (H : Recommendations.get_recommendations json_loads_names
                Samples.db_three_articles [1; 0]%nat [2; 0]%nat "captain" 2
                1%Q [] = Ok MoreSampleResults.discovery_only_feed)
    by (by vm_compute).
  split; [done|]. split; [done|].
  exact (feed_mix_one_is_pure_discovery _ _ _ _ _ _ _ _ _ Hm H).
Defined.

(** A feed with [feed_mix = 0.0]. *)
Lemma feed_mix_zero_is_pure_ranking_witness :
  (0 == 0)%Q
  ∧ - 2 ^ 53 ≤ 2 ≤ 2 ^ 53
  ∧ Recommendations.get_recommendations json_loads_names
      Samples.db_three_articles [1; 0]%nat [2; 0]%nat "captain" 2 0%Q []
    = Ok MoreSampleResults.ranked_only_feed
  ∧ ∀ a, a ∈ MoreSampleResults.ranked_only_feed →
         Recommendations.art_recommendation_type a = Some "recommended".
Proof.
  assert (Hm : (0 == 0)%Q) by reflexivity.
  assert (Hc : - 2 ^ 53 ≤ 2 ≤ 2 ^ 53) by lia.
  assert (H : Recommendations.get_recommendations json_loads_names
                Samples.db_three_articles [1; 0]%nat [2; 0]%nat "captain" 2
                0%Q [] = Ok MoreSampleResults.ranked_only_feed)
    by (by vm_compute).
  split; [done|]. split; [done|]. split; [done|].
  exact (proj1 (feed_mix_zero_is_pure_ranking _ _ _ _ _ _ _ _ _ Hm Hc H)).
Defined.

(** The relevance scores of [SampleResults.three_articles_feed]. *)
Lemma feed_relevance_scores_bounded_witness :
  (∀ row, row ∈ articles Samples.db_three_articles → 0 ≤ a_access_count row)
  ∧ Recommendations.get_recommendations json_loads_names
      Samples.db_three_articles [1; 0]%nat [2; 0]%nat "captain" 2 0.5%Q [3]
    = Ok SampleResults.three_articles_feed
  ∧ ∀ a, a ∈ SampleResults.three_articles_feed →
         ∃ s, Recommendations.art_relevance_score a = Some s
              ∧ (0 < s)%Q ∧ (s <= 0.76)%Q.
Proof.
  assert (Hac : ∀ row, row ∈ articles Samples.db_three_articles →
                       0 ≤ a_access_count row).
  { intros row Hrow.
    repeat (apply elem_of_cons in Hrow as [-> | Hrow]; [by vm_compute|]).
    by apply elem_of_nil in Hrow. }
  assert (H : Recommendations.get_recommendations json_loads_names
                Samples.db_three_articles [1; 0]%nat [2; 0]%nat "captain" 2
                0.5%Q [3] = Ok SampleResults.three_articles_feed)
    by (by vm_compute).
  split; [done|]. split; [done|].
  exact (feed_relevance_scores_bounded _ _ _ _ _ _ _ _ _ Hac H).
Defined.

(** After [captain] viewed article 2, the feed no longer holds it. *)
Lemma viewed_article_leaves_the_feed_witness :
  ("view" = "view" ∨ "view" = "read")
  ∧ Engagement.record_event Samples.db_three_articles Samples.now 2 "view"
      "captain" 30 0%Q = Ok (MoreSampleResults.db_after_view, 1)
  ∧ Recommendations.get_recommendations json_loads_names
      MoreSampleResults.db_after_view [1; 0]%nat [2; 0]%nat "captain" 3
      0.5%Q [] = Ok MoreSampleResults.feed_after_view
  ∧ ∀ a, a ∈ MoreSampleResults.feed_after_view →
         Recommendations.art_id a ≠ 2.
Proof.
  assert (Ht : "view" = "view" ∨ "view" = "read") by (by left).
  assert (Hr : Engagement.record_event Samples.db_three_articles Samples.now
                 2 "view" "captain" 30 0%Q
               = Ok (MoreSampleResults.db_after_view, 1)) by reflexivity.
  assert (H : Recommendations.get_recommendations json_loads_names
                MoreSampleResults.db_after_view [1; 0]%nat [2; 0]%nat
                "captain" 3 0.5%Q [] = Ok MoreSampleResults.feed_after_view)
    by (by vm_compute).
  split; [done|]. split; [done|]. split; [done|].
  exact (viewed_article_leaves_the_feed _ _ _ _ _ _ _ _ _ _ _ _ _ _ _ _
           Ht Hr H).
Defined.

(** A random draw from [Samples.db_three_articles]. *)
Lemma random_articles_sample_of_pool_witness :
  Recommendations._get_random_articles json_loads_names
    Samples.db_three_articles [2; 0]%nat {[3]} 5
  = Ok MoreSampleResults.three_random
  ∧ ∀ a, a ∈ MoreSampleResults.three_random →
         Recommendations.art_id a ∉@{gset Z} {[3]}.
Proof.
  assert (H : Recommendations._get_random_articles json_loads_names
                Samples.db_three_articles [2; 0]%nat {[3]} 5
              = Ok MoreSampleResults.three_random) by (by vm_compute).
  split; [done|]. intros a Ha.
  by destruct (proj1 (random_articles_sample_of_pool _ _ _ _ _ _ H) a Ha).
Defined.

(** The weight of [Science] admits an article stored with [["Science"]]. *)
Lemma category_filter_is_substring_match_witness :
  ({[ "Science" := 1%Q ]} : gmap string Q) ≠ ∅
  ∧ (∀ k, is_Some (({[ "Science" := 1%Q ]} : gmap string Q) !! k) →
          no_wildcard k = true)
  ∧ Recommendations.category_filter {[ "Science" := 1%Q ]}
      (Samples.sample_article 1 ["Science"]) = true.
Proof.
  assert (Hne : ({[ "Science" := 1%Q ]} : gmap string Q) ≠ ∅)
    by apply insert_non_empty.
  assert (Hw : ∀ k, is_Some (({[ "Science" := 1%Q ]} : gmap string Q) !! k) →
                    no_wildcard k = true).
  { intros k [v Hk]. apply lookup_singleton_Some in Hk as [<- _]. done. }
  split; [done|]. split; [done|].
  apply (proj2 (category_filter_is_substring_match _ _) Hne Hw).
  exists "Science", (json_names ["Science"]).
  split; [by rewrite lookup_singleton_eq|]. split; [done | by vm_compute].
Defined.

(** Browsing [History] among the twenty sample articles. *)
Lemma category_browse_by_popularity_witness :
  RecommendationEngine.get_category_browse json_loads_names
    Samples.db_twenty_articles "History" 5
  = Ok MoreSampleResults.history_browse
  ∧ 0 ≤ 5
  ∧ Z.of_nat (length MoreSampleResults.history_browse) ≤ 5.
Proof.
  assert (H : RecommendationEngine.get_category_browse json_loads_names
                Samples.db_twenty_articles "History" 5
              = Ok MoreSampleResults.history_browse) by (by vm_compute).
  assert (Hc : 0 ≤ 5) by lia.
  split; [done|]. split; [done|].
  exact (proj2 (proj2 (category_browse_by_popularity _ _ _ _ _ H)) Hc).
Defined.

(** Searching for [TIT] among the three sample articles. *)
Lemma search_matches_title_or_content_witness :
  RecommendationEngine.search_articles json_loads_names
    Samples.db_three_articles "TIT" 2 = Ok MoreSampleResults.title_search
  ∧ 0 ≤ 2
  ∧ Z.of_nat (length MoreSampleResults.title_search) ≤ 2.
Proof.
  assert (H : RecommendationEngine.search_articles json_loads_names
                Samples.db_three_articles "TIT" 2
              = Ok MoreSampleResults.title_search) by (by vm_compute).
  assert (Hc : 0 ≤ 2) by lia.
  split; [done|]. split; [done|].
  exact (proj1 (proj2 (search_matches_title_or_content _ _ _ _ _ H)) Hc).
Defined.

(** Two orders of the same Wikipedia categories. *)
Lemma map_categories_characterised_witness :
  ["Rivers of Europe"; "Ancient wars"] ≡ₚ ["Ancient wars"; "Rivers of Europe"]
  ∧ "History" ∈ ServerCategories.map_categories
                  ["Rivers of Europe"; "Ancient wars"]
  ∧ "History" ∈ ServerCategories.map_categories
                  ["Ancient wars"; "Rivers of Europe"].
Proof.
  assert (H : ["Rivers of Europe"; "Ancient wars"]
              ≡ₚ ["Ancient wars"; "Rivers of Europe"])
    by apply Permutation_swap.
  assert (Hh : "History" ∈ ServerCategories.map_categories
                             ["Rivers of Europe"; "Ancient wars"])
    by compute_done.
  split; [done|]. split; [done|].
  by apply (proj2 (proj2 (proj2 (proj2 (proj2
              (map_categories_characterised
                 ["Rivers of Europe"; "Ancient wars"])))))
              _ "History" H).
Defined.
